(** * The GoodMorning messages API

    A shallow embedding of the Express server of the repository (the file
    that registers the routes [/api/health], [/api/test-db],
    [/api/check-tables], [/], [/api/messages] and [/api/messages/:id]), with
    the PostgreSQL table it talks to as explicit state.

    - JavaScript values that reach a handler are [JsVal]; a JavaScript string
      is a [string] whose characters are code units below 256 (strings with
      higher code units are outside the model), and its length is the number
      of its code units.
    - A handler is a computation in a small state-and-exception monad [M]:
      the state is the connection (table contents and the statements issued
      so far), an exception is what [await pool.query] or a method call
      throws, [try_catch] is the handler's [try { } catch (error) { }].
    - What the code leaves to the platform is a [Variable] of the section:
      ECMAScript's number coercion of strings and objects, [Date]'s ISO
      rendering, PostgreSQL's integer input function.
    - What a request finds outside the process is its [World]: the clocks,
      which statements the infrastructure rejects and whether the server had
      run them by then, and the order in which the database lists rows of
      equal [created_at]. *)

From Stdlib Require Import String Ascii List ZArith QArith Bool Lia.
From Stdlib Require Import Permutation Sorted.
Import ListNotations.

#[local] Set Warnings "-register-all".
Local Open Scope string_scope.
Local Open Scope list_scope.

(** ** JavaScript values *)

Inductive JsVal : Type :=
| JUndefined
| JNull
| JBool (b : bool)
| JNum (q : Q)
| JStr (s : string)
| JArr (items : list JsVal)
| JObj (props : list (string * JsVal)).

(** What a [throw] or a call of [next] carries: a [TypeError] of the
    runtime, the error a rejected [pool.query] promise carries, or the
    [SyntaxError] with which a body parser refuses a body.  Each has a
    [message]. *)
Inductive Exn : Type :=
| TypeError (msg : string)
| DatabaseError (msg : string)
| SyntaxError (msg : string).

Definition error_message (e : Exn) : string :=
  match e with TypeError m | DatabaseError m | SyntaxError m => m end.

Inductive Completion (A : Type) : Type :=
| Normal (a : A)
| Throw (e : Exn).
Arguments Normal {A} a.
Arguments Throw {A} e.

(** [!v] is [negb (truthy v)]. *)
Definition truthy (v : JsVal) : bool :=
  match v with
  | JUndefined | JNull => false
  | JBool b => b
  | JNum q => negb (Qeq_bool q 0)
  | JStr s => negb (s =? "")
  | JArr _ | JObj _ => true
  end.

Definition is_string (v : JsVal) : bool :=
  match v with JStr _ => true | _ => false end.

Fixpoint lookup (k : string) (props : list (string * JsVal)) : JsVal :=
  match props with
  | [] => JUndefined
  | (k', v) :: rest => if k' =? k then v else lookup k rest
  end.

(** [v[k]] for a key [k] that is not an array index and not a method of a
    prototype: the handlers read [name], [email], [message] and [length].
    Reading a property of [undefined] or [null] throws. *)
Definition get (v : JsVal) (k : string) : Completion JsVal :=
  match v with
  | JUndefined | JNull =>
      Throw (TypeError ("Cannot read properties of undefined (reading '" ++ k ++ "')"))
  | JObj props => Normal (lookup k props)
  | JArr items =>
      Normal (if k =? "length" then JNum (inject_Z (Z.of_nat (List.length items)))
              else JUndefined)
  | JStr s =>
      Normal (if k =? "length" then JNum (inject_Z (Z.of_nat (String.length s)))
              else JUndefined)
  | JBool _ | JNum _ => Normal JUndefined
  end.

(** ** [String.prototype.trim] *)

(** ECMAScript's WhiteSpace and LineTerminator code points below 256: TAB,
    LF, VT, FF, CR, SP and NBSP. *)
Definition is_white_space (c : ascii) : bool :=
  let n := nat_of_ascii c in
  ((9 <=? n) && (n <=? 13) || (n =? 32) || (n =? 160))%nat.

Fixpoint trimStart (s : string) : string :=
  match s with
  | EmptyString => EmptyString
  | String c r => if is_white_space c then trimStart r else s
  end.

Fixpoint trimEnd (s : string) : string :=
  match s with
  | EmptyString => EmptyString
  | String c r =>
      match trimEnd r with
      | EmptyString => if is_white_space c then EmptyString else String c EmptyString
      | r' => String c r'
      end
  end.

Definition trim (s : string) : string := trimEnd (trimStart s).

(** A string of white space only (the empty string included). *)
Fixpoint blank (s : string) : bool :=
  match s with
  | EmptyString => true
  | String c r => is_white_space c && blank r
  end.

(** [v.trim()]: only a string has the method; on anything else the call is a
    call of [undefined] (or of a property that is not a function). *)
Definition call_trim (field : string) (v : JsVal) : Completion string :=
  match v with
  | JStr s => Normal (trim s)
  | _ => Throw (TypeError (field ++ ".trim is not a function"))
  end.

(** ** PostgreSQL's side: the [messages] table of [initDb]

    [id SERIAL PRIMARY KEY, name VARCHAR(255) NOT NULL, email VARCHAR(255)
    NOT NULL, message TEXT NOT NULL, created_at], [updated_at TIMESTAMP WITH
    TIME ZONE DEFAULT CURRENT_TIMESTAMP].  A timestamp is an instant on the
    server's clock, as an integer. *)

Record Message : Type := {
  id : Z;
  name : string;
  email : string;
  message : string;
  created_at : Z;
  updated_at : Z
}.

(** The table in heap (insertion) order, and the next value of the sequence
    behind [SERIAL]: a sequence of type [integer], which counts by one and
    gives no value past [int4_max]. *)
Record Db : Type := {
  messages : list Message;
  messages_id_seq : Z
}.

Definition int4_max : Z := 2147483647.

(** [CREATE TABLE IF NOT EXISTS] on a database that has no table yet. *)
Definition empty_db : Db := {| messages := []; messages_id_seq := 1 |}.

(** [ORDER BY created_at DESC]: an insertion sort over the heap order.  The
    statement has no second key, so the order of two rows with equal
    [created_at] is the database's to choose: [first a b] tells whether it
    lists [a] before [b]. *)
Fixpoint insert_desc (first : Message -> Message -> bool) (m : Message)
  (l : list Message) : list Message :=
  match l with
  | [] => [m]
  | x :: r =>
      if (created_at x <? created_at m)%Z then m :: l
      else if (created_at x =? created_at m)%Z && first m x then m :: l
      else x :: insert_desc first m r
  end.

Definition order_by_created_at_desc (first : Message -> Message -> bool)
  (l : list Message) : list Message :=
  fold_right (insert_desc first) [] l.

(** A text without the character of code 0, which PostgreSQL refuses in a
    value of type [text] or [varchar]. *)
Fixpoint no_nul (s : string) : bool :=
  match s with
  | EmptyString => true
  | String c r => negb (nat_of_ascii c =? 0)%nat && no_nul r
  end.

Fixpoint all_spaces (s : string) : bool :=
  match s with
  | EmptyString => true
  | String c r => (nat_of_ascii c =? 32)%nat && all_spaces r
  end.

(** Storing [s] in a [VARCHAR(n)] column: a longer string is an error unless
    the excess is spaces only, which are cut off. *)
Definition varchar (n : nat) (s : string) : option string :=
  if (String.length s <=? n)%nat then Some s
  else if all_spaces (substring n (String.length s - n) s) then Some (substring 0 n s)
  else None.

(** White space as PostgreSQL's input functions skip it. *)
Definition is_space (c : ascii) : bool :=
  let n := nat_of_ascii c in ((9 <=? n) && (n <=? 13) || (n =? 32))%nat.

Definition is_digit (c : ascii) : bool :=
  let n := nat_of_ascii c in ((48 <=? n) && (n <=? 57))%nat.

Fixpoint skip_spaces (s : string) : string :=
  match s with
  | EmptyString => EmptyString
  | String c r => if is_space c then skip_spaces r else s
  end.

Fixpoint read_digits (s : string) (acc : Z) : Z * string :=
  match s with
  | EmptyString => (acc, EmptyString)
  | String c r =>
      if is_digit c then read_digits r (10 * acc + Z.of_nat (nat_of_ascii c - 48))%Z
      else (acc, s)
  end.

(** PostgreSQL's integer input on decimal text: white space, a sign, digits,
    white space, within the range of [int4].  From version 16 on PostgreSQL
    also reads hexadecimal, octal and binary literals and underscores
    between digits ([0x10], [0o20], [0b10000], [1_000]), which this reader
    refuses: it stands for [int4in] at the sample requests only, and their
    parameters are read alike by every version. *)
Definition int4in_decimal (s : string) : option Z :=
  let s1 := skip_spaces s in
  let '(neg, s2) :=
    match s1 with
    | String "-"%char r => (true, r)
    | String "+"%char r => (false, r)
    | _ => (false, s1)
    end in
  match s2 with
  | EmptyString => None
  | String c _ =>
      if is_digit c then
        let '(v, rest) := read_digits s2 0 in
        let v := if neg then (- v)%Z else v in
        if (skip_spaces rest =? "") && (-2147483648 <=? v)%Z && (v <=? 2147483647)%Z
        then Some v else None
      else None
  end.

(** The statements the handlers send, with their parameters as sent:
    - [SELECT NOW() as current_time, version() as pg_version]
    - [SELECT COUNT( * ) as message_count FROM messages]
    - [SELECT table_name FROM information_schema.tables WHERE table_schema = 'public']
    - [SELECT column_name, data_type, is_nullable FROM information_schema.columns
       WHERE table_name = 'messages']
    - [SELECT id, name, email, message, created_at, updated_at FROM messages
       ORDER BY created_at DESC]
    - [SELECT id, name, email, message, created_at, updated_at FROM messages
       WHERE id = $1]
    - [INSERT INTO messages (name, email, message) VALUES ($1, $2, $3)
       RETURNING id, name, email, message, created_at, updated_at]
    - [DELETE FROM messages WHERE id = $1] *)
Inductive Sql : Type :=
| SelectNowVersion
| SelectCountMessages
| SelectPublicTables
| SelectMessagesColumns
| SelectMessages
| SelectMessageById (param : string)
| InsertMessage (n e m : string)
| DeleteMessageById (param : string).

(** What [pool.query] resolves to. *)
Record Result : Type := {
  rows : list JsVal;
  rowCount : nat
}.

(** What a request finds outside the process: the database's clock; which
    of the request's [pool.query] calls (by position, from 0) is rejected by
    a failure of the infrastructure and with which message; whether the
    server had run the statement before that failure ([applied]: the
    connection is lost after the statement was executed, so the driver
    rejects a statement that has taken effect); which of two rows with equal
    [created_at] the database lists first under [ORDER BY created_at DESC];
    the process's clock and uptime; and what the catalog queries of the
    diagnostic routes return. *)
Record World : Type := {
  CURRENT_TIMESTAMP : Z;
  fault : nat -> option string;
  applied : nat -> bool;
  listed_first : Message -> Message -> bool;
  Date_now : Z;
  uptime : Q;
  pg_version : string;
  public_tables : list JsVal;
  messages_columns : list JsVal
}.

Record Env : Type := { NODE_ENV : option string }.

(** [process.env.NODE_ENV === 'development'] *)
Definition is_development (env : Env) : bool :=
  match NODE_ENV env with
  | Some s => s =? "development"
  | None => false
  end.

(** ** Responses *)

Record Response : Type := {
  status : Z;
  body : JsVal
}.

Definition is_undefined (v : JsVal) : bool :=
  match v with JUndefined => true | _ => false end.

(** An object literal [{k: v, ...}] as [JSON.stringify] writes it: a property
    whose value is [undefined] is left out. *)
Definition js_object (props : list (string * JsVal)) : JsVal :=
  JObj (filter (fun kv => negb (is_undefined (snd kv))) props).

(** [res.status(code).json({...})] *)
Definition res_json (code : Z) (props : list (string * JsVal)) : Response :=
  {| status := code; body := js_object props |}.

Definition keys (v : JsVal) : list string :=
  match v with
  | JObj props => map fst props
  | _ => []
  end.

Definition field (k : string) (v : JsVal) : JsVal :=
  match v with
  | JObj props => lookup k props
  | _ => JUndefined
  end.

(** [s.split(' ')] *)
Fixpoint split_space (s : string) : list string :=
  match s with
  | EmptyString => [EmptyString]
  | String c r =>
      if (nat_of_ascii c =? 32)%nat then EmptyString :: split_space r
      else match split_space r with
           | [] => [String c EmptyString]
           | p :: ps => String c p :: ps
           end
  end.

(** ** The handler monad *)

Record Conn : Type := {
  db : Db;
  issued : list Sql;
  caught : option Exn
}.

Definition M (A : Type) : Type := Conn -> Completion A * Conn.

Definition ret {A : Type} (a : A) : M A := fun c => (Normal a, c).

Definition bind {A B : Type} (m : M A) (f : A -> M B) : M B :=
  fun c =>
    match m c with
    | (Normal a, c') => f a c'
    | (Throw e, c') => (Throw e, c')
    end.

Definition lift {A : Type} (x : Completion A) : M A := fun c => (x, c).

(** [try { body } catch (error) { handler }]; the connection remembers what
    was caught. *)
Definition try_catch {A : Type} (body : M A) (handler : Exn -> M A) : M A :=
  fun c =>
    match body c with
    | (Normal a, c') => (Normal a, c')
    | (Throw e, c') =>
        handler e {| db := db c'; issued := issued c'; caught := Some e |}
    end.

Declare Scope handler_scope.
Delimit Scope handler_scope with handler.
Notation "x <- m ;; k" := (bind m (fun x => k))
  (at level 100, m at next level, right associativity) : handler_scope.
Notation "'when' b 'reply' r ;; k" := (if b then ret r else k)
  (at level 100, b at next level, r at next level, right associativity) : handler_scope.

(** A request as Express hands it to the handler it has picked: the route,
    with the parameter of the path or the parsed body; [Unmatched] is a
    request that no route takes, [Failed] one whose parsing by a middleware
    ended in an error passed on to the error handler.

    The type has the requests that reach a handler of the file.  A request
    that a middleware answers itself is not among them: [cors] ends every
    OPTIONS request before any route.  The body of [POST_messages] is
    [req.body] as the handler finds it; which bodies [express.json] lets
    through is [express_json] below. *)
Inductive Request : Type :=
| GET_health
| GET_test_db
| GET_check_tables
| GET_root
| GET_messages
| GET_message (param : string)
| POST_messages (req_body : JsVal)
| DELETE_message (param : string)
| Unmatched (originalUrl : string)
| Failed (error : Exn).

(** What a handler has done when it returns: the status and the body it
    passed to [res.status(...).json(...)], the table, the statements it
    sent and what its [catch] caught.  What Express makes of the answer on
    the wire is not part of it ([res.json] sends 304 without a body when a
    conditional GET matches the ETag of the body). *)
Record Outcome : Type := {
  response : Response;
  db_after : Db;
  queries : list Sql;
  caught_error : option Exn
}.

(** The body the form of the front end posts, [{name, email, message}] with
    strings for values; [None] is a key that is left out. *)
Definition text_field (k : string) (o : option string) : list (string * JsVal) :=
  match o with
  | Some s => [(k, JStr s)]
  | None => []
  end.

Definition form (n e m : option string) : JsVal :=
  JObj (text_field "name" n ++ text_field "email" e ++ text_field "message" m).

(** ** Sample requests and worlds *)

(** A world in which no statement is rejected; rows of one instant are
    listed in heap order. *)
Definition calm : World :=
  {| CURRENT_TIMESTAMP := 1700000000;
     fault := fun _ => None;
     applied := fun _ => false;
     listed_first := fun _ _ => true;
     Date_now := 1700000000;
     uptime := 12;
     pg_version := "PostgreSQL 15.4 on x86_64-pc-linux-gnu";
     public_tables := [JObj [("table_name", JStr "messages")]];
     messages_columns := [] |}.

(** A world in which every statement is rejected with [msg] before it
    reaches the server. *)
Definition broken (msg : string) : World :=
  {| CURRENT_TIMESTAMP := 1700000000;
     fault := fun _ => Some msg;
     applied := fun _ => false;
     listed_first := fun _ _ => true;
     Date_now := 1700000000;
     uptime := 12;
     pg_version := "PostgreSQL 15.4 on x86_64-pc-linux-gnu";
     public_tables := [];
     messages_columns := [] |}.

Definition development : Env := {| NODE_ENV := Some "development" |}.

Definition production : Env := {| NODE_ENV := Some "production" |}.

Definition ada : JsVal :=
  form (Some "  Ada ") (Some "ada@example.com") (Some "hello").

Definition bob : JsVal :=
  form (Some "Bob") (Some "bob@example.com") (Some "good morning").

Definition blank_name : JsVal :=
  form (Some "   ") (Some "ada@example.com") (Some "hello").

Definition empty_name : JsVal :=
  form (Some "") (Some "a@b.com") (Some "hi").

Definition number_name_empty_email : JsVal :=
  JObj [("name", JNum 5); ("email", JStr ""); ("message", JStr "hi")].

Definition number_name : JsVal :=
  JObj [("name", JNum 5); ("email", JStr "a@b.com"); ("message", JStr "hi")].

Definition long_array_name : JsVal :=
  JObj [("name", JArr (repeat JNull 256)); ("email", JStr "a@b.com");
        ("message", JStr "hi")].

Definition ada_row : Message :=
  {| id := 1; name := "Ada"; email := "ada@example.com"; message := "hello";
     created_at := 1700000000; updated_at := 1700000000 |}.

Definition bob_row : Message :=
  {| id := 2; name := "Bob"; email := "bob@example.com"; message := "good morning";
     created_at := 1700000000; updated_at := 1700000000 |}.

(** The world of [calm] one instant later. *)
Definition later : World :=
  {| CURRENT_TIMESTAMP := 1700000001;
     fault := fun _ => None;
     applied := fun _ => false;
     listed_first := fun _ _ => true;
     Date_now := 1700000001;
     uptime := 13;
     pg_version := "PostgreSQL 15.4 on x86_64-pc-linux-gnu";
     public_tables := [JObj [("table_name", JStr "messages")]];
     messages_columns := [] |}.

Definition later_bob_row : Message :=
  {| id := 2; name := "Bob"; email := "bob@example.com"; message := "good morning";
     created_at := 1700000001; updated_at := 1700000001 |}.

Definition one_row : Db := {| messages := [ada_row]; messages_id_seq := 2 |}.

(** ** Further samples *)

(** The decimal digits of a natural number, most significant first; [fuel]
    bounds their number. *)
Fixpoint decimal_digits (fuel : nat) (z : Z) (acc : string) : string :=
  match fuel with
  | O => acc
  | S fuel' =>
      let acc' := String (ascii_of_nat (48 + Z.to_nat (z mod 10))) acc in
      if (z / 10 =? 0)%Z then acc' else decimal_digits fuel' (z / 10)%Z acc'
  end.

(** ECMAScript's ToString where the sample requests need it: on a number
    that is an integer, its decimal digits.  Other values are not
    rendered. *)
Definition ToString_of_integer (v : JsVal) : string :=
  match v with
  | JNum q =>
      let z := Qnum q in
      if (z <? 0)%Z
      then String "-" (decimal_digits (S (Z.to_nat (Z.log2 (- z)))) (- z) "")
      else decimal_digits (S (Z.to_nat (Z.log2 z))) z ""
  | _ => ""
  end.

Definition two_rows : Db := {| messages := [ada_row; later_bob_row]; messages_id_seq := 3 |}.

(** A world in which the connection is lost after the server has run the
    statement: every statement takes effect and is rejected with [msg]. *)
Definition lost_after (msg : string) : World :=
  {| CURRENT_TIMESTAMP := 1700000000;
     fault := fun _ => Some msg;
     applied := fun _ => true;
     listed_first := fun _ _ => true;
     Date_now := 1700000000;
     uptime := 12;
     pg_version := "PostgreSQL 15.4 on x86_64-pc-linux-gnu";
     public_tables := [];
     messages_columns := [] |}.

(** The world of [calm] with rows of one instant listed last stored first. *)
Definition calm_last_first : World :=
  {| CURRENT_TIMESTAMP := 1700000000;
     fault := fun _ => None;
     applied := fun _ => false;
     listed_first := fun _ _ => false;
     Date_now := 1700000000;
     uptime := 12;
     pg_version := "PostgreSQL 15.4 on x86_64-pc-linux-gnu";
     public_tables := [JObj [("table_name", JStr "messages")]];
     messages_columns := [] |}.

(** A name of 253 spaces before three letters, and a name with the
    character of code 0 in it. *)
Definition padded_name : string :=
  string_of_list_ascii (repeat " "%char 253) ++ "Ada".

Definition padded : JsVal :=
  form (Some padded_name) (Some "ada@example.com") (Some "hello").

Definition nul_name : string := String "a" (String (ascii_of_nat 0) "b").

Definition with_nul : JsVal :=
  form (Some nul_name) (Some "ada@example.com") (Some "hello").

(** A table whose sequence has given its last value, and a table in which a
    row already has the next value of the sequence as [id]. *)
Definition exhausted : Db := {| messages := [ada_row]; messages_id_seq := 2147483648 |}.

Definition behind : Db := {| messages := [ada_row; bob_row]; messages_id_seq := 2 |}.

(** ** The server *)

Section Server.

(** ECMAScript's StringToNumber; [None] is NaN. *)
Variable StringToNumber : string -> option Q.
(** ECMAScript's ToNumber on an array or an object (through ToPrimitive,
    which may throw). *)
Variable ObjectToNumber : JsVal -> Completion (option Q).
(** [Date.prototype.toISOString], which [res.json] applies to the [Date]
    that the driver builds from a timestamp. *)
Variable toISOString : Z -> string.
(** PostgreSQL's input function of [integer], applied to the text of the
    parameter compared with [id]; [None] is its error. *)
Variable int4in : string -> option Z.

Local Open Scope handler_scope.

Definition ToNumber (v : JsVal) : Completion (option Q) :=
  match v with
  | JUndefined => Normal None
  | JNull => Normal (Some 0%Q)
  | JBool b => Normal (Some (if b then 1%Q else 0%Q))
  | JNum q => Normal (Some q)
  | JStr s => Normal (StringToNumber s)
  | JArr _ | JObj _ => ObjectToNumber v
  end.

(** [v > n]; a comparison with NaN is false. *)
Definition js_gt (v : JsVal) (n : Z) : Completion bool :=
  match ToNumber v with
  | Normal (Some q) => Normal (negb (Qle_bool q (inject_Z n)))
  | Normal None => Normal false
  | Throw e => Throw e
  end.

(** [v.length > n] *)
Definition length_gt (v : JsVal) (n : Z) : Completion bool :=
  match get v "length" with
  | Normal len => js_gt len n
  | Throw e => Throw e
  end.

(** A row as the client reads it. *)
Definition row_json (m : Message) : JsVal :=
  JObj [("id", JNum (inject_Z (id m)));
        ("name", JStr (name m));
        ("email", JStr (email m));
        ("message", JStr (message m));
        ("created_at", JStr (toISOString (created_at m)));
        ("updated_at", JStr (toISOString (updated_at m)))].

Definition has_id (n : Z) (m : Message) : bool := (id m =? n)%Z.

Definition invalid_integer (param : string) : Exn :=
  DatabaseError ("invalid input syntax for type integer: " ++ param).

Definition value_too_long : Exn :=
  DatabaseError "value too long for type character varying(255)".

Definition invalid_byte_sequence : Exn :=
  DatabaseError "invalid byte sequence for encoding UTF8: 0x00".

Definition sequence_exhausted : Exn :=
  DatabaseError "nextval: reached maximum value of sequence messages_id_seq (2147483647)".

Definition duplicate_key : Exn :=
  DatabaseError "duplicate key value violates unique constraint messages_pkey".

(** The table after an INSERT that the primary key refuses: the value taken
    from the sequence is not given back. *)
Definition skipped (d : Db) : Db :=
  {| messages := messages d; messages_id_seq := (messages_id_seq d + 1)%Z |}.

(** One statement on the table: its result or its error, and the table
    after it.  An INSERT is refused when a parameter has the character of
    code 0 in it, when a value does not fit its [VARCHAR(255)] column, when
    the sequence behind [id] has given its last value, and when a row
    already has the next value of the sequence as [id]; only the last of
    these comes after [nextval], and leaves the sequence one further. *)
Definition exec (w : World) (q : Sql) (d : Db) : Completion Result * Db :=
  match q with
  | SelectNowVersion =>
      (Normal {| rows := [JObj [("current_time", JStr (toISOString (CURRENT_TIMESTAMP w)));
                                ("pg_version", JStr (pg_version w))]];
                 rowCount := 1 |}, d)
  | SelectCountMessages =>
      (Normal {| rows := [JObj [("message_count",
                                 JNum (inject_Z (Z.of_nat (List.length (messages d)))))]];
                 rowCount := 1 |}, d)
  | SelectPublicTables =>
      (Normal {| rows := public_tables w; rowCount := List.length (public_tables w) |}, d)
  | SelectMessagesColumns =>
      (Normal {| rows := messages_columns w;
                 rowCount := List.length (messages_columns w) |}, d)
  | SelectMessages =>
      let found := order_by_created_at_desc (listed_first w) (messages d) in
      (Normal {| rows := map row_json found; rowCount := List.length found |}, d)
  | SelectMessageById param =>
      match int4in param with
      | None => (Throw (invalid_integer param), d)
      | Some n =>
          let found := filter (has_id n) (messages d) in
          (Normal {| rows := map row_json found; rowCount := List.length found |}, d)
      end
  | InsertMessage n e m =>
      if negb (no_nul n && no_nul e && no_nul m) then (Throw invalid_byte_sequence, d)
      else
        match varchar 255 n, varchar 255 e with
        | Some n', Some e' =>
            if (int4_max <? messages_id_seq d)%Z then (Throw sequence_exhausted, d)
            else if existsb (has_id (messages_id_seq d)) (messages d)
            then (Throw duplicate_key, skipped d)
            else
              let row := {| id := messages_id_seq d; name := n'; email := e'; message := m;
                            created_at := CURRENT_TIMESTAMP w;
                            updated_at := CURRENT_TIMESTAMP w |} in
              (Normal {| rows := [row_json row]; rowCount := 1 |},
               {| messages := messages d ++ [row];
                  messages_id_seq := (messages_id_seq d + 1)%Z |})
        | _, _ => (Throw value_too_long, d)
        end
  | DeleteMessageById param =>
      match int4in param with
      | None => (Throw (invalid_integer param), d)
      | Some n =>
          let kept := filter (fun m => negb (has_id n m)) (messages d) in
          (Normal {| rows := [];
                     rowCount := List.length (filter (has_id n) (messages d)) |},
           {| messages := kept; messages_id_seq := messages_id_seq d |})
      end
  end.

(** [await pool.query(...)]: the statement is recorded.  When the
    infrastructure fails the promise is rejected with its message, and the
    table is as the statement left it if the server had run it before the
    failure, and untouched otherwise; when it does not fail the promise
    settles as the statement does. *)
Definition pool_query (w : World) (q : Sql) : M Result :=
  fun c =>
    let sent := issued c ++ [q] in
    match fault w (List.length (issued c)) with
    | Some msg =>
        (Throw (DatabaseError msg),
         {| db := if applied w (List.length (issued c)) then snd (exec w q (db c))
                  else db c;
            issued := sent; caught := caught c |})
    | None =>
        match exec w q (db c) with
        | (Normal r, d') => (Normal r, {| db := d'; issued := sent; caught := caught c |})
        | (Throw e, d') => (Throw e, {| db := d'; issued := sent; caught := caught c |})
        end
    end.

Definition internal_error (msg : string) : Response :=
  res_json 500 [("success", JBool false);
                ("error", JStr "Internal server error");
                ("message", JStr msg)].

Definition not_found (msg : string) : Response :=
  res_json 404 [("success", JBool false);
                ("error", JStr "Not found");
                ("message", JStr msg)].

Definition validation_failed (msg : string) : Response :=
  res_json 400 [("success", JBool false);
                ("error", JStr "Validation failed");
                ("message", JStr msg)].

(** [app.get("/api/health")] *)
Definition get_health (w : World) : M Response :=
  ret (res_json 200 [("status", JStr "OK");
                     ("message", JStr "Server is running smoothly");
                     ("timestamp", JStr (toISOString (Date_now w)));
                     ("uptime", JNum (uptime w))]).

(** [rows[0].pg_version.split(' ')[1]] *)
Definition version_number (row : JsVal) : JsVal :=
  match field "pg_version" row with
  | JStr s => match nth_error (split_space s) 1 with
              | Some v => JStr v
              | None => JUndefined
              end
  | _ => JUndefined
  end.

(** [app.get("/api/test-db")]; the driver hands [COUNT] over as text and
    [parseInt] reads the number back. *)
Definition get_test_db (w : World) : M Response :=
  try_catch
    (r <- pool_query w SelectNowVersion ;;
     messagesResult <- pool_query w SelectCountMessages ;;
     let row := nth 0 (rows r) JUndefined in
     ret (res_json 200
            [("success", JBool true);
             ("database", js_object [("connected", JBool true);
                                     ("time", field "current_time" row);
                                     ("version", version_number row)]);
             ("messages",
              js_object [("count", field "message_count"
                                     (nth 0 (rows messagesResult) JUndefined))])]))
    (fun error =>
       ret (res_json 500 [("success", JBool false);
                          ("error", JStr "Database connection failed");
                          ("message", JStr (error_message error))])).

(** [app.get("/api/check-tables")] *)
Definition get_check_tables (w : World) : M Response :=
  try_catch
    (tables <- pool_query w SelectPublicTables ;;
     messageColumns <- pool_query w SelectMessagesColumns ;;
     ret (res_json 200 [("success", JBool true);
                        ("tables", JArr (rows tables));
                        ("messages_columns", JArr (rows messageColumns))]))
    (fun error =>
       ret (res_json 500 [("success", JBool false);
                          ("error", JStr (error_message error))])).

(** [app.get("/")] *)
Definition get_root : M Response :=
  ret (res_json 200
         [("message", JStr "🚀 Welcome to GoodMorning API");
          ("version", JStr "1.0.0");
          ("endpoints",
           JObj [("health", JStr "/api/health");
                 ("testDb", JStr "/api/test-db");
                 ("checkTables", JStr "/api/check-tables");
                 ("createMessage", JStr "POST /api/messages");
                 ("getMessages", JStr "GET /api/messages");
                 ("getMessage", JStr "GET /api/messages/:id")])]).

(** [app.get("/api/messages")] *)
Definition get_messages (env : Env) (w : World) : M Response :=
  try_catch
    (result <- pool_query w SelectMessages ;;
     ret (res_json 200
            [("success", JBool true);
             ("count", JNum (inject_Z (Z.of_nat (List.length (rows result)))));
             ("data", JArr (rows result))]))
    (fun error =>
       ret (res_json 500
              [("success", JBool false);
               ("error", JStr "Internal server error");
               ("message", JStr "Failed to fetch messages");
               ("details", if is_development env then JStr (error_message error)
                           else JUndefined)])).

(** [app.get("/api/messages/:id")] *)
Definition get_message (w : World) (param : string) : M Response :=
  try_catch
    (r <- pool_query w (SelectMessageById param) ;;
     when (List.length (rows r) =? 0)%nat reply not_found "Message not found" ;;
     ret (res_json 200 [("success", JBool true);
                        ("data", nth 0 (rows r) JUndefined)]))
    (fun error => ret (internal_error "Failed to fetch message")).

(** [app.post("/api/messages")] *)
Definition post_messages (w : World) (req_body : JsVal) : M Response :=
  try_catch
    (name <- lift (get req_body "name") ;;
     email <- lift (get req_body "email") ;;
     message <- lift (get req_body "message") ;;
     when negb (truthy name) || negb (truthy email) || negb (truthy message)
     reply validation_failed "All fields (name, email, message) are required" ;;
     name_long <- lift (length_gt name 255) ;;
     when name_long
     reply validation_failed "Name must be less than 255 characters" ;;
     email_long <- lift (length_gt email 255) ;;
     when email_long
     reply validation_failed "Email must be less than 255 characters" ;;
     n <- lift (call_trim "name" name) ;;
     e <- lift (call_trim "email" email) ;;
     m <- lift (call_trim "message" message) ;;
     r <- pool_query w (InsertMessage n e m) ;;
     ret (res_json 201 [("success", JBool true);
                        ("message", JStr "Message created successfully");
                        ("data", nth 0 (rows r) JUndefined)]))
    (fun error => ret (internal_error "Failed to create message")).

(** [app.delete("/api/messages/:id")] *)
Definition delete_message (w : World) (param : string) : M Response :=
  try_catch
    (r <- pool_query w (DeleteMessageById param) ;;
     when (rowCount r =? 0)%nat reply not_found "Message not found" ;;
     ret (res_json 200 [("success", JBool true);
                        ("message", JStr "Message deleted successfully")]))
    (fun error => ret (internal_error "Failed to delete message")).

(** The handler that [app.use((req, res) => ...)] registers last. *)
Definition route_not_found (originalUrl : string) : M Response :=
  ret (not_found ("Route " ++ originalUrl ++ " not found")).

(** The handler with four parameters: what was passed to [next]. *)
Definition global_error_handler (error : Exn) : Response :=
  internal_error "Something went wrong".

Definition route (env : Env) (w : World) (req : Request) : M Response :=
  match req with
  | GET_health => get_health w
  | GET_test_db => get_test_db w
  | GET_check_tables => get_check_tables w
  | GET_root => get_root
  | GET_messages => get_messages env w
  | GET_message param => get_message w param
  | POST_messages req_body => post_messages w req_body
  | DELETE_message param => delete_message w param
  | Unmatched originalUrl => route_not_found originalUrl
  | Failed error => fun c => (Throw error, c)
  end.

(** One request against the table [d]. *)
Definition handle (env : Env) (w : World) (req : Request) (d : Db) : Outcome :=
  match route env w req {| db := d; issued := []; caught := None |} with
  | (Normal r, c) =>
      {| response := r; db_after := db c; queries := issued c; caught_error := caught c |}
  | (Throw e, c) =>
      {| response := global_error_handler e; db_after := db c; queries := issued c;
         caught_error := Some e |}
  end.

(** Requests served one after the other, each in its own world. *)
Fixpoint run (env : Env) (steps : list (World * Request)) (d : Db) : list Outcome :=
  match steps with
  | [] => []
  | (w, req) :: rest =>
      let o := handle env w req d in
      o :: run env rest (db_after o)
  end.

Definition final_db (d : Db) (outs : list Outcome) : Db :=
  last (map db_after outs) d.


(** ** Vocabulary of the statements *)

Definition absent_or_empty (o : option string) : Prop := o = None \/ o = Some "".

Definition longer_than (n : nat) (o : option string) : Prop :=
  exists s, o = Some s /\ (n < String.length s)%nat.

(** The primary key: no two stored rows share an [id], and the sequence is
    ahead of every stored [id]. *)
Definition db_wf (d : Db) : Prop :=
  NoDup (map id (messages d))
  /\ Forall (fun m => (id m < messages_id_seq d)%Z) (messages d).

(** The [id] a [201] response reports. *)
Definition new_id (o : Outcome) : option Z :=
  if (status (response o) =? 201)%Z then
    match field "id" (field "data" (body (response o))) with
    | JNum q => Some (Qnum q)
    | _ => None
    end
  else None.

Fixpoint new_ids (outs : list Outcome) : list Z :=
  match outs with
  | [] => []
  | o :: rest =>
      match new_id o with
      | Some i => i :: new_ids rest
      | None => new_ids rest
      end
  end.

Definition newer_or_same (a b : Message) : Prop := (created_at b <= created_at a)%Z.

Definition older (a b : Message) : Prop := (created_at a < created_at b)%Z.

(** A request answered without a statement sent and without a [catch]. *)
Definition quiet (d : Db) (r : Response) : Outcome :=
  {| response := r; db_after := d; queries := []; caught_error := None |}.

(** A request answered after the statements [qs], without a [catch]. *)
Definition quiet_after (qs : list Sql) (d : Db) (r : Response) : Outcome :=
  {| response := r; db_after := d; queries := qs; caught_error := None |}.

(** The three members every error body is said to have. *)
Definition error_members (v : JsVal) : Prop :=
  field "success" v = JBool false
  /\ (exists e, field "error" v = JStr e)
  /\ (exists m, field "message" v = JStr m).

(** What a handler answers when a statement of its request is rejected with
    [msg], route by route. *)
Definition storage_failure_reply (env : Env) (req : Request) (msg : string) : Response :=
  match req with
  | GET_messages =>
      {| status := 500;
         body := JObj ([("success", JBool false);
                        ("error", JStr "Internal server error");
                        ("message", JStr "Failed to fetch messages")]
                       ++ (if is_development env then [("details", JStr msg)] else [])) |}
  | GET_message _ => internal_error "Failed to fetch message"
  | POST_messages _ => internal_error "Failed to create message"
  | DELETE_message _ => internal_error "Failed to delete message"
  | GET_test_db =>
      {| status := 500;
         body := JObj [("success", JBool false);
                       ("error", JStr "Database connection failed");
                       ("message", JStr msg)] |}
  | GET_check_tables =>
      {| status := 500;
         body := JObj [("success", JBool false); ("error", JStr msg)] |}
  | _ => internal_error "Something went wrong"
  end.

(** A member of the form as the handler reads it. *)
Definition opt_val (o : option string) : JsVal :=
  match o with
  | Some s => JStr s
  | None => JUndefined
  end.

(** The row an INSERT stores: the next value of the sequence, and the
    instant of the statement in both timestamps. *)
Definition new_row (w : World) (d : Db) (n e m : string) : Message :=
  {| id := messages_id_seq d; name := n; email := e; message := m;
     created_at := CURRENT_TIMESTAMP w; updated_at := CURRENT_TIMESTAMP w |}.

Definition with_row (d : Db) (row : Message) : Db :=
  {| messages := messages d ++ [row]; messages_id_seq := (messages_id_seq d + 1)%Z |}.

(** The answer to a POST that stored [row]. *)
Definition created (row : Message) : Response :=
  res_json 201 [("success", JBool true);
                ("message", JStr "Message created successfully");
                ("data", row_json row)].

(** The table after [DELETE FROM messages WHERE id = k]. *)
Definition without_id (k : Z) (d : Db) : Db :=
  {| messages := filter (fun m => negb (has_id k m)) (messages d);
     messages_id_seq := messages_id_seq d |}.

(** What one request can do to the table: nothing; store one row, and
    report it with 201 unless the rejection came after the INSERT had run;
    take a value from the sequence for an INSERT that the primary key
    refuses; or delete by id. *)
Inductive Effect (w : World) (d : Db) (o : Outcome) : Prop :=
| Unchanged :
    db_after o = d -> status (response o) <> 201%Z -> Effect w d o
| Inserted (n e m : string) :
    db_after o = with_row d (new_row w d n e m) ->
    response o = created (new_row w d n e m) \/ status (response o) <> 201%Z ->
    Effect w d o
| Skipped :
    db_after o = skipped d -> status (response o) <> 201%Z -> Effect w d o
| Deleted (k : Z) :
    db_after o = without_id k d -> status (response o) <> 201%Z -> Effect w d o.

(** The table takes one more row: the sequence has a value to give, and no
    stored row has that value as [id]. *)
Definition has_room (d : Db) : Prop :=
  (messages_id_seq d <= int4_max)%Z /\ ~ In (messages_id_seq d) (map id (messages d)).

(** A POST of three strings in its world, and what makes it a valid one
    that the infrastructure does not reject: no member is empty after
    trimming, [name] and [email] have at most 255 characters as they are
    received, and no member has the character of code 0 in it. *)
Definition Post : Type := (World * (string * string * string))%type.

Definition post_of (p : Post) : World * Request :=
  let '(w, (n, e, m)) := p in (w, POST_messages (form (Some n) (Some e) (Some m))).

Definition valid_post (p : Post) : Prop :=
  let '(w, (n, e, m)) := p in
  trim n <> "" /\ trim e <> "" /\ trim m <> ""
  /\ (String.length n <= 255)%nat /\ (String.length e <= 255)%nat
  /\ no_nul n = true /\ no_nul e = true /\ no_nul m = true
  /\ fault w 0 = None.

Definition instant (p : Post) : Z := CURRENT_TIMESTAMP (fst p).

(** The rows that valid posts store, from the value [next] of the sequence. *)
Fixpoint posted_rows (next : Z) (posts : list Post) : list Message :=
  match posts with
  | [] => []
  | (w, (n, e, m)) :: rest =>
      {| id := next; name := trim n; email := trim e; message := trim m;
         created_at := CURRENT_TIMESTAMP w; updated_at := CURRENT_TIMESTAMP w |}
      :: posted_rows (next + 1) rest
  end.

(** ** Further vocabulary *)

(** The outcome of a POST once it has sent the INSERT of [n], [e] and
    [m]. *)
Definition after_insert (w : World) (d : Db) (n e m : string) : Outcome :=
  match fault w 0 with
  | Some msg =>
      {| response := internal_error "Failed to create message";
         db_after := if applied w 0 then snd (exec w (InsertMessage n e m) d) else d;
         queries := [InsertMessage n e m];
         caught_error := Some (DatabaseError msg) |}
  | None =>
      match exec w (InsertMessage n e m) d with
      | (Normal r, d') =>
          {| response := res_json 201 [("success", JBool true);
                                       ("message", JStr "Message created successfully");
                                       ("data", nth 0 (rows r) JUndefined)];
             db_after := d';
             queries := [InsertMessage n e m];
             caught_error := None |}
      | (Throw err, d') =>
          {| response := internal_error "Failed to create message"; db_after := d';
             queries := [InsertMessage n e m];
             caught_error := Some err |}
      end
  end.

(** The routes that send an INSERT or a DELETE. *)
Definition is_write (req : Request) : bool :=
  match req with
  | POST_messages _ | DELETE_message _ => true
  | _ => false
  end.

(** What the POST handler lets into a row: trimmed strings, [name] and
    [email] within their column, one instant for both timestamps. *)
Definition row_ok (m : Message) : Prop :=
  trim (name m) = name m /\ trim (email m) = email m /\ trim (message m) = message m
  /\ (String.length (name m) <= 255)%nat /\ (String.length (email m) <= 255)%nat
  /\ created_at m = updated_at m
  /\ (0 < id m)%Z.

Definition table_ok (d : Db) : Prop :=
  (0 < messages_id_seq d)%Z /\ Forall row_ok (messages d).

(** The statements that read. *)
Definition is_select (q : Sql) : bool :=
  match q with
  | InsertMessage _ _ _ | DeleteMessageById _ => false
  | _ => true
  end.

(** A string without a space. *)
Fixpoint no_space (s : string) : bool :=
  match s with
  | EmptyString => true
  | String c r => negb (nat_of_ascii c =? 32)%nat && no_space r
  end.

(** The row that [SELECT NOW() as current_time, version() as pg_version]
    returns for the version text [v]. *)
Definition version_row (t : JsVal) (v : string) : JsVal :=
  JObj [("current_time", t); ("pg_version", JStr v)].

(** ** Start-up: [initDb] and [startServer] *)

(** What the database knows of [messages] when the process starts: nothing,
    or a table with or without each of the two timestamp columns and with
    or without the index [idx_messages_created_at].  The rows are those of
    [content]; the timestamp of a column that the table does not have is
    not read. *)
Record Table : Type := {
  has_created_at : bool;
  has_updated_at : bool;
  has_index : bool;
  content : Db
}.

(** The statements of [initDb], in its order:
    - [SELECT 1]
    - [CREATE TABLE IF NOT EXISTS messages (...)]
    - [CREATE INDEX IF NOT EXISTS idx_messages_created_at ON
       messages(created_at DESC)]
    - [ALTER TABLE messages ADD COLUMN IF NOT EXISTS created_at ... DEFAULT
       CURRENT_TIMESTAMP, ADD COLUMN IF NOT EXISTS updated_at ... DEFAULT
       CURRENT_TIMESTAMP] *)
Inductive Ddl : Type :=
| Select1
| CreateTableMessages
| CreateIndexCreatedAt
| AddTimestampColumns.

(** A column added with a default gives that default to the rows there
    are. *)
Definition add_columns (now : Z) (t : Table) : Db :=
  {| messages :=
       map (fun m =>
              {| id := id m; name := name m; email := email m; message := message m;
                 created_at := if has_created_at t then created_at m else now;
                 updated_at := if has_updated_at t then updated_at m else now |})
           (messages (content t));
     messages_id_seq := messages_id_seq (content t) |}.

Definition exec_ddl (w : World) (q : Ddl) (c : option Table) : Completion (option Table) :=
  match q, c with
  | Select1, _ => Normal c
  | CreateTableMessages, Some t => Normal (Some t)
  | CreateTableMessages, None =>
      Normal (Some {| has_created_at := true; has_updated_at := true;
                      has_index := false; content := empty_db |})
  | _, None => Throw (DatabaseError "relation messages does not exist")
  | CreateIndexCreatedAt, Some t =>
      if has_index t then Normal (Some t)
      else if has_created_at t then
        Normal (Some {| has_created_at := true; has_updated_at := has_updated_at t;
                        has_index := true; content := content t |})
      else Throw (DatabaseError "column created_at does not exist")
  | AddTimestampColumns, Some t =>
      Normal (Some {| has_created_at := true; has_updated_at := true;
                      has_index := has_index t;
                      content := add_columns (CURRENT_TIMESTAMP w) t |})
  end.

Record Boot : Type := {
  catalog : option Table;
  sent : list Ddl
}.

(** [await pool.query(...)] at start-up, on the catalog.  A rejection ends
    start-up ([initDb]'s [catch] leaves the process), so that what a
    rejected statement may have done to the catalog is not followed. *)
Definition boot_query (w : World) (q : Ddl) (b : Boot) : Completion unit * Boot :=
  let b' := {| catalog := catalog b; sent := sent b ++ [q] |} in
  match fault w (List.length (sent b)) with
  | Some msg => (Throw (DatabaseError msg), b')
  | None =>
      match exec_ddl w q (catalog b) with
      | Normal c => (Normal tt, {| catalog := c; sent := sent b ++ [q] |})
      | Throw e => (Throw e, b')
      end
  end.

Definition and_then (first : Boot -> Completion unit * Boot)
  (next : Boot -> Completion unit * Boot) (b : Boot) : Completion unit * Boot :=
  match first b with
  | (Normal _, b') => next b'
  | (Throw e, b') => (Throw e, b')
  end.

(** How the process stands after start-up: it has left with a code, or it
    goes on with the catalog as it is now. *)
Inductive Process : Type :=
| Exited (code : Z) (statements : list Ddl)
| Alive (c : option Table) (statements : list Ddl).

(** [initDb]: the four statements in a [try]; the [catch] is
    [process.exit(1)]. *)
Definition initDb (w : World) (c : option Table) : Process :=
  match and_then (boot_query w Select1)
          (and_then (boot_query w CreateTableMessages)
             (and_then (boot_query w CreateIndexCreatedAt)
                (boot_query w AddTimestampColumns)))
          {| catalog := c; sent := [] |} with
  | (Normal _, b) => Alive (catalog b) (sent b)
  | (Throw _, b) => Exited 1 (sent b)
  end.

(** [process.env.PORT || 5000] *)
Definition PORT (env_port : option string) : JsVal :=
  match env_port with
  | Some s => if s =? "" then JNum 5000 else JStr s
  | None => JNum 5000
  end.

(** [startServer]: [await initDb()] and then [app.listen(PORT, ...)]; the
    table the handlers work on is the content of the catalog. *)
Inductive Server : Type :=
| Stopped (code : Z)
| Listening (port : JsVal) (c : option Table).

Definition startServer (env_port : option string) (w : World) (c : option Table) : Server :=
  match initDb w c with
  | Exited code _ => Stopped code
  | Alive c' _ => Listening (PORT env_port) c'
  end.

(** No statement of start-up is rejected by the infrastructure. *)
Definition boots (w : World) : Prop :=
  fault w 0 = None /\ fault w 1 = None /\ fault w 2 = None /\ fault w 3 = None.

(** The table as the current [CREATE TABLE] makes it, indexed. *)
Definition current (d : Db) : Table :=
  {| has_created_at := true; has_updated_at := true; has_index := true; content := d |}.

(** The four statements of start-up. *)
Definition boot_statements : list Ddl :=
  [Select1; CreateTableMessages; CreateIndexCreatedAt; AddTimestampColumns].

(** ** The pages of the front end

    The list page ([MessagesPage]) and the form page ([Home]), as the state
    each keeps and what its handlers make of it once the request they send
    has come back.  One handler runs at a time. *)

(** What [await fetch(...)] gives: a rejection, or a response with its
    status and its body read by [response.json()] ([None] when the body is
    not JSON). *)
Inductive Fetched : Type :=
| NetworkError
| Answered (code : Z) (json : option JsVal).

(** [response.ok] *)
Definition response_ok (code : Z) : bool := ((200 <=? code) && (code <=? 299))%Z.

(** What the browser receives when the server has answered [r]. *)
Definition over_the_wire (r : Response) : Fetched :=
  Answered (status r) (Some (body r)).

(** The state of [MessagesPage]. *)
Record MessagesPage : Type := {
  page_messages : JsVal;
  page_loading : bool;
  refreshing : bool;
  deletingIds : list JsVal
}.

(** [useState([])], [useState(true)], [useState(false)], [useState([])] *)
Definition first_render : MessagesPage :=
  {| page_messages := JArr []; page_loading := true; refreshing := false;
     deletingIds := [] |}.

(** [fetchMessages(isRefreshing)], with what the GET came back with. *)
Definition fetchMessages (isRefreshing : bool) (net : Fetched) (p : MessagesPage)
  : MessagesPage :=
  let started :=
    if isRefreshing
    then {| page_messages := page_messages p; page_loading := page_loading p;
            refreshing := true; deletingIds := deletingIds p |}
    else {| page_messages := page_messages p; page_loading := true;
            refreshing := refreshing p; deletingIds := deletingIds p |} in
  let shown :=
    match net with
    | Answered code (Some data) =>
        if response_ok code then
          match get data "data" with
          | Normal v => if truthy v then v else JArr []
          | Throw _ => page_messages started
          end
        else page_messages started
    | _ => page_messages started
    end in
  {| page_messages := shown; page_loading := false; refreshing := false;
     deletingIds := deletingIds started |}.

(** [a === b] when [b] is not an array and not an object: equality of
    primitive values.  (Two arrays or objects are equal when they are the
    same object, which values do not tell.) *)
Definition strict_equal (a b : JsVal) : bool :=
  match a, b with
  | JUndefined, JUndefined => true
  | JNull, JNull => true
  | JBool x, JBool y => Bool.eqb x y
  | JNum x, JNum y => Qeq_bool x y
  | JStr x, JStr y => x =? y
  | _, _ => false
  end.

Definition is_primitive (v : JsVal) : bool :=
  match v with
  | JArr _ | JObj _ => false
  | _ => true
  end.

(** [prev.filter((m) => m.id !== id)]; reading [m.id] of [null] throws. *)
Fixpoint without_card (id : JsVal) (prev : list JsVal) : option (list JsVal) :=
  match prev with
  | [] => Some []
  | m :: rest =>
      match get m "id", without_card id rest with
      | Normal v, Some kept => Some (if strict_equal v id then kept else m :: kept)
      | _, _ => None
      end
  end.


(** The [id] of the card at position [i], when the page has rendered one
    and that [id] is a primitive value. *)
Definition card_id (i : nat) (p : MessagesPage) : option JsVal :=
  match page_messages p with
  | JArr cards =>
      match nth_error cards i with
      | Some message =>
          match get message "id" with
          | Normal id => if is_primitive id then Some id else None
          | Throw _ => None
          end
      | None => None
      end
  | _ => None
  end.

(** The [onClick] of the Delete button of the card at position [i]:
    [confirmed] is what [window.confirm] returned, [net] what the DELETE
    came back with.  The result is the page and what [alert] showed; it is
    [None] when there is no such card, or when updating the list throws. *)
Definition delete_click (i : nat) (confirmed : bool) (net : Fetched) (p : MessagesPage)
  : option (MessagesPage * option string) :=
  match card_id i p with
  | None => None
  | Some id =>
      if negb confirmed then Some (p, None)
      else
        let pending := deletingIds p ++ [id] in
        let settled := filter (fun x => negb (strict_equal x id)) pending in
        let failed :=
          Some ({| page_messages := page_messages p; page_loading := page_loading p;
                   refreshing := refreshing p; deletingIds := settled |},
                Some "Failed to delete message") in
        match net with
        | Answered code _ =>
            if response_ok code then
              match page_messages p with
              | JArr prev =>
                  match without_card id prev with
                  | Some kept =>
                      Some ({| page_messages := JArr kept;
                               page_loading := page_loading p;
                               refreshing := refreshing p; deletingIds := settled |},
                            None)
                  | None => None
                  end
              | _ => None
              end
            else failed
        | NetworkError => failed
        end
  end.

(** The state of the form page: [form] and [loading]. *)
Record FormPage : Type := {
  form_name : string;
  form_email : string;
  form_message : string;
  form_loading : bool
}.


(** The three fields, by their [name] attribute. *)
Inductive Field : Type := field_name | field_email | field_message.

(** [handleChange]: [setForm({ ...form, [e.target.name]: e.target.value })] *)
Definition handleChange (target : Field) (value : string) (f : FormPage) : FormPage :=
  match target with
  | field_name =>
      {| form_name := value; form_email := form_email f;
         form_message := form_message f; form_loading := form_loading f |}
  | field_email =>
      {| form_name := form_name f; form_email := value;
         form_message := form_message f; form_loading := form_loading f |}
  | field_message =>
      {| form_name := form_name f; form_email := form_email f;
         form_message := value; form_loading := form_loading f |}
  end.


(** What [await axios.post(...)] gives: a rejection (no response, or a
    status outside 200..299), or the response with its [data]. *)
Inductive Axios : Type :=
| AxiosRejected
| AxiosResolved (data : JsVal).


Inductive Toast : Type :=
| ToastSuccess (text : string)
| ToastError (text : JsVal).

Definition failed_to_send : JsVal := JStr "❌ Failed to send message".

(** [handleSubmit], with what the POST came back with: the page and the
    toast it shows. *)
Definition handleSubmit (ax : Axios) (f : FormPage) : FormPage * Toast :=
  let done (kept : bool) :=
    if kept
    then {| form_name := form_name f; form_email := form_email f;
            form_message := form_message f; form_loading := false |}
    else {| form_name := ""; form_email := ""; form_message := "";
            form_loading := false |} in
  match ax with
  | AxiosRejected => (done true, ToastError failed_to_send)
  | AxiosResolved data =>
      match get data "success" with
      | Throw _ => (done true, ToastError failed_to_send)
      | Normal success =>
          if truthy success
          then (done false, ToastSuccess "🎉 Message sent successfully!")
          else (done true,
                ToastError (if truthy (field "message" data) then field "message" data
                            else failed_to_send))
      end
  end.

(** The list page shows the table [d]: its cards are the rows of [d] in an
    order that GET /api/messages may list them in, every row once and none
    older than the rows after it. *)
Definition shows (p : MessagesPage) (d : Db) : Prop :=
  exists listed,
    page_messages p = JArr (map row_json listed)
    /\ Permutation listed (messages d)
    /\ StronglySorted newer_or_same listed.

(** ** Tactics *)

(** Unfolds a request down to its statements. *)
Ltac run_handler :=
  cbv [handle route post_messages get_message delete_message get_messages
       get_test_db get_check_tables get_health get_root route_not_found
       try_catch bind lift ret pool_query
       response db_after queries caught_error db issued caught].

(** Splits a handler along its branches. *)
Ltac split_cases :=
  repeat (simpl List.length; cbv [rows rowCount];
          match goal with
          | |- context [fault ?w ?k] => destruct (fault w k)
          | |- context [int4in ?p] => destruct (int4in p)
          | |- context [exec ?w SelectNowVersion ?d] => simpl (exec w SelectNowVersion d)
          | |- context [exec ?w SelectCountMessages ?d] => simpl (exec w SelectCountMessages d)
          | |- context [exec ?w SelectPublicTables ?d] => simpl (exec w SelectPublicTables d)
          | |- context [exec ?w SelectMessagesColumns ?d] =>
              simpl (exec w SelectMessagesColumns d)
          | |- context [exec ?w SelectMessages ?d] => simpl (exec w SelectMessages d)
          | |- context [exec ?w (SelectMessageById ?p) ?d] => unfold exec
          | |- context [exec ?w (DeleteMessageById ?p) ?d] => unfold exec
          | |- context [exec ?w (InsertMessage ?n ?e ?m) ?d] =>
              destruct (exec w (InsertMessage n e m) d) as [[?|?] ?]
          | |- context [applied ?w ?k] => destruct (applied w k)
          | |- context [get ?b ?k] => destruct (get b k)
          | |- context [length_gt ?v ?n] => destruct (length_gt v n) as [[|]|]
          | |- context [call_trim ?f ?v] => destruct (call_trim f v)
          | |- context [negb (truthy ?a) || ?b || ?c] => destruct (negb (truthy a) || b || c)
          | |- context [(?a =? 0)%nat] => destruct (a =? 0)%nat
          | |- context [is_development ?e] => destruct (is_development e) eqn:?
          end).

(** ** Strings *)

Example trim_example : trim "  Ada Lovelace  " = "Ada Lovelace".
Proof. reflexivity. Qed.

Example trim_blank_example : trim "   " = "".
Proof. reflexivity. Qed.

Lemma trimEnd_length (s : string) : (String.length (trimEnd s) <= String.length s)%nat.
Proof.
  induction s as [|c r IH]; simpl; [lia|].
  destruct (trimEnd r) eqn:E; simpl in *.
  - destruct (is_white_space c); simpl; lia.
  - lia.
Qed.

Lemma trimStart_length (s : string) : (String.length (trimStart s) <= String.length s)%nat.
Proof.
  induction s as [|c r IH]; simpl; [lia|].
  destruct (is_white_space c); simpl; lia.
Qed.

Lemma trim_length (s : string) : (String.length (trim s) <= String.length s)%nat.
Proof.
  unfold trim. pose proof (trimEnd_length (trimStart s)).
  pose proof (trimStart_length s). lia.
Qed.

Lemma trimStart_blank (s : string) : blank s = true -> trimStart s = "".
Proof.
  induction s as [|c r IH]; simpl; [reflexivity|].
  destruct (is_white_space c); simpl; [exact IH | discriminate].
Qed.

Lemma trimStart_head (s : string) :
  trimStart s = "" \/ exists c r, trimStart s = String c r /\ is_white_space c = false.
Proof.
  induction s as [|c r IH]; simpl; [left; reflexivity|].
  destruct (is_white_space c) eqn:E; [exact IH|].
  right. exists c, r. split; [reflexivity | exact E].
Qed.

Lemma trimStart_empty_blank (s : string) : trimStart s = "" -> blank s = true.
Proof.
  induction s as [|c r IH]; simpl; [reflexivity|].
  destruct (is_white_space c); simpl; [exact IH | discriminate].
Qed.

(** A string trims to the empty string exactly when it is blank. *)
Lemma trim_empty_iff (s : string) : trim s = "" <-> blank s = true.
Proof.
  unfold trim. split.
  - intros H. apply trimStart_empty_blank.
    destruct (trimStart_head s) as [E | (c & r & E & Hc)]; [exact E|].
    rewrite E in H. simpl in H. rewrite Hc in H.
    destruct (trimEnd r); discriminate.
  - intros H. rewrite (trimStart_blank s H). reflexivity.
Qed.

(** ** The comparison [length > 255] on a string *)

Lemma Qle_bool_inject_Z (a b : Z) : Qle_bool (inject_Z a) (inject_Z b) = (a <=? b)%Z.
Proof. unfold Qle_bool, inject_Z; simpl. rewrite !Z.mul_1_r. reflexivity. Qed.

Lemma length_gt_string (s : string) :
  length_gt (JStr s) 255 = Normal (255 <? String.length s)%nat.
Proof.
  unfold length_gt, get, js_gt, ToNumber.
  replace ("length" =? "length") with true by reflexivity.
  rewrite Qle_bool_inject_Z. f_equal.
  destruct (Nat.ltb_spec 255 (String.length s)) as [H|H];
    destruct (Z.leb_spec (Z.of_nat (String.length s)) 255) as [H'|H']; simpl; try reflexivity; lia.
Qed.

(** ** The cases of [app.post("/api/messages")] *)

Section Post.

Variables (env : Env) (w : World) (d : Db) (req_body vn ve vm : JsVal).
Hypothesis Hname : get req_body "name" = Normal vn.
Hypothesis Hemail : get req_body "email" = Normal ve.
Hypothesis Hmessage : get req_body "message" = Normal vm.

Let o := handle env w (POST_messages req_body) d.

Lemma post_field_missing :
  truthy vn && truthy ve && truthy vm = false ->
  o = quiet d (validation_failed "All fields (name, email, message) are required").
Proof.
  intros H. subst o. run_handler. rewrite Hname, Hemail, Hmessage.
  replace (negb (truthy vn) || negb (truthy ve) || negb (truthy vm)) with true; [reflexivity|].
  destruct (truthy vn), (truthy ve), (truthy vm); simpl in *; congruence.
Qed.

Hypothesis Hpresent : truthy vn && truthy ve && truthy vm = true.

Lemma present_check_passes :
  negb (truthy vn) || negb (truthy ve) || negb (truthy vm) = false.
Proof.
  generalize Hpresent.
  destruct (truthy vn), (truthy ve), (truthy vm); simpl; congruence.
Qed.

Lemma post_name_long :
  length_gt vn 255 = Normal true ->
  o = quiet d (validation_failed "Name must be less than 255 characters").
Proof.
  intros H. subst o. run_handler. rewrite Hname, Hemail, Hmessage, present_check_passes, H.
  reflexivity.
Qed.


Hypothesis Hname_ok : length_gt vn 255 = Normal false.

Lemma post_email_long :
  length_gt ve 255 = Normal true ->
  o = quiet d (validation_failed "Email must be less than 255 characters").
Proof.
  intros H. subst o. run_handler.
  rewrite Hname, Hemail, Hmessage, present_check_passes, Hname_ok, H.
  reflexivity.
Qed.


Hypothesis Hemail_ok : length_gt ve 255 = Normal false.

Lemma post_trim_throws :
  is_string vn && is_string ve && is_string vm = false ->
  exists msg,
    o = {| response := internal_error "Failed to create message"; db_after := d;
           queries := []; caught_error := Some (TypeError msg) |}.
Proof.
  intros H. subst o. run_handler.
  rewrite Hname, Hemail, Hmessage, present_check_passes, Hname_ok, Hemail_ok.
  destruct vn; try (eexists; reflexivity);
    destruct ve; try (eexists; reflexivity);
    destruct vm; try (eexists; reflexivity).
  discriminate H.
Qed.

Lemma post_insert n e m :
  vn = JStr n -> ve = JStr e -> vm = JStr m ->
  o = match fault w 0 with
      | Some msg =>
          {| response := internal_error "Failed to create message";
             db_after := if applied w 0
                         then snd (exec w (InsertMessage (trim n) (trim e) (trim m)) d)
                         else d;
             queries := [InsertMessage (trim n) (trim e) (trim m)];
             caught_error := Some (DatabaseError msg) |}
      | None =>
          match exec w (InsertMessage (trim n) (trim e) (trim m)) d with
          | (Normal r, d') =>
              {| response :=
                   res_json 201 [("success", JBool true);
                                 ("message", JStr "Message created successfully");
                                 ("data", nth 0 (rows r) JUndefined)];
                 db_after := d';
                 queries := [InsertMessage (trim n) (trim e) (trim m)];
                 caught_error := None |}
          | (Throw err, d') =>
              {| response := internal_error "Failed to create message"; db_after := d';
                 queries := [InsertMessage (trim n) (trim e) (trim m)];
                 caught_error := Some err |}
          end
      end.
Proof.
  intros En Ee Em. subst o. run_handler.
  rewrite Hname, Hemail, Hmessage, present_check_passes, Hname_ok, Hemail_ok.
  rewrite En, Ee, Em. cbv [call_trim]. simpl List.length.
  destruct (fault w 0); [reflexivity|].
  destruct (exec w _ d) as [[r|err] d']; reflexivity.
Qed.

End Post.

(** ** Request validation *)

Lemma truthy_opt_val (o : option string) :
  truthy (opt_val o) = false <-> absent_or_empty o.
Proof.
  unfold absent_or_empty. destruct o as [s|]; simpl.
  - destruct s; simpl; split; intros H; try discriminate; auto.
    destruct H as [H|H]; discriminate.
  - split; auto.
Qed.

Lemma truthy_opt_val_true (o : option string) :
  truthy (opt_val o) = true -> exists s, o = Some s /\ s <> "".
Proof.
  destruct o as [s|]; simpl; [|discriminate].
  destruct s; simpl; [discriminate|]. intros _. eexists; split; [reflexivity | discriminate].
Qed.

(** C1, as the code has it: on a body whose [name], [email] and [message]
    are strings or absent, the answer is 400 exactly when one of the three
    is absent or the empty string, or [name] or [email] is longer than 255,
    all three taken as received: nothing is trimmed before the checks, so a
    member of white space only passes. *)
Theorem post_400_iff env w d req_body (n e m : option string) :
  get req_body "name" = Normal (opt_val n) ->
  get req_body "email" = Normal (opt_val e) ->
  get req_body "message" = Normal (opt_val m) ->
  status (response (handle env w (POST_messages req_body) d)) = 400%Z
  <-> absent_or_empty n \/ absent_or_empty e \/ absent_or_empty m
      \/ longer_than 255 n \/ longer_than 255 e.
Proof.
  intros Gn Ge Gm.
  destruct (truthy (opt_val n) && truthy (opt_val e) && truthy (opt_val m)) eqn:P.
  - apply andb_prop in P as [P Pm]. apply andb_prop in P as [Pn Pe].
    assert (P : truthy (opt_val n) && truthy (opt_val e) && truthy (opt_val m) = true)
      by (rewrite Pn, Pe, Pm; reflexivity).
    destruct (truthy_opt_val_true _ Pn) as (sn & -> & Hn).
    destruct (truthy_opt_val_true _ Pe) as (se & -> & He).
    destruct (truthy_opt_val_true _ Pm) as (sm & -> & Hm).
    assert (present : ~ (absent_or_empty (Some sn) \/ absent_or_empty (Some se)
                         \/ absent_or_empty (Some sm))).
    { unfold absent_or_empty. intros [[H|H]|[[H|H]|[H|H]]]; congruence. }
    simpl opt_val in *.
    pose proof (length_gt_string sn) as Ln. pose proof (length_gt_string se) as Le.
    destruct (Nat.ltb_spec 255 (String.length sn)) as [Hn'|Hn'].
    { rewrite (post_name_long env w d _ _ _ _ Gn Ge Gm P Ln). split; [intros _|reflexivity].
      right; right; right; left. exists sn; auto. }
    destruct (Nat.ltb_spec 255 (String.length se)) as [He'|He'].
    { rewrite (post_email_long env w d _ _ _ _ Gn Ge Gm P Ln Le). split; [intros _|reflexivity].
      right; right; right; right. exists se; auto. }
    assert (Hst : status (response (handle env w (POST_messages req_body) d)) <> 400%Z).
    { rewrite (post_insert env w d _ _ _ _ Gn Ge Gm P Ln Le sn se sm eq_refl eq_refl eq_refl).
      destruct (fault w 0); [simpl; discriminate|].
      destruct (exec _ _ _) as [[r|err] d']; simpl; discriminate. }
    split.
    + intros H. contradiction.
    + intros [H|[H|[H|[(s & E & H)|(s & E & H)]]]]; try (exfalso; apply present; tauto);
        injection E as <-; lia.
  - rewrite (post_field_missing env w d _ _ _ _ Gn Ge Gm P). split; [intros _|reflexivity].
    apply andb_false_iff in P as [P|P]; [apply andb_false_iff in P as [P|P]|];
      apply truthy_opt_val in P; tauto.
Qed.

(** C6: a request that [app.post("/api/messages")] answers with 400 has sent
    no statement to the database and leaves the table as it was, whatever
    the body. *)
Theorem post_400_no_query env w req_body d :
  status (response (handle env w (POST_messages req_body) d)) = 400%Z ->
  queries (handle env w (POST_messages req_body) d) = []
  /\ db_after (handle env w (POST_messages req_body) d) = d.
Proof.
  run_handler.
  destruct (get req_body "name") as [vn|]; [|simpl; discriminate].
  destruct (get req_body "email") as [ve|]; [|simpl; discriminate].
  destruct (get req_body "message") as [vm|]; [|simpl; discriminate].
  destruct (negb (truthy vn) || negb (truthy ve) || negb (truthy vm)); [simpl; auto|].
  destruct (length_gt vn 255) as [[|]|]; [simpl; auto| |simpl; discriminate].
  destruct (length_gt ve 255) as [[|]|]; [simpl; auto| |simpl; discriminate].
  destruct (call_trim "name" vn); [|simpl; discriminate].
  destruct (call_trim "email" ve); [|simpl; discriminate].
  destruct (call_trim "message" vm); [|simpl; discriminate].
  simpl List.length.
  destruct (fault w 0); [simpl; discriminate|].
  destruct (exec w _ d) as [[r|err] d']; simpl; discriminate.
Qed.

Lemma length_gt_no_length (v : JsVal) :
  get v "length" = Normal JUndefined -> length_gt v 255 = Normal false.
Proof. intros H. unfold length_gt. rewrite H. reflexivity. Qed.

Lemma length_gt_array (items : list JsVal) :
  (List.length items <= 255)%nat -> length_gt (JArr items) 255 = Normal false.
Proof.
  intros H. unfold length_gt, get, js_gt, ToNumber.
  replace ("length" =? "length") with true by reflexivity.
  rewrite Qle_bool_inject_Z.
  destruct (Z.leb_spec (Z.of_nat (List.length items)) 255); [reflexivity | lia].
Qed.

(** C10, as the code has it: when the three members are truthy, neither
    [name.length > 255] nor [email.length > 255] holds, and one of the three
    is not a string, the call of [trim] on it throws a [TypeError] before
    any statement is sent, and the answer is 500.  The comparison of the
    length never holds for a number, a boolean, an object without a
    [length], or an array of at most 255 elements. *)
Theorem post_non_string_500 :
  (forall env w d req_body vn ve vm,
     get req_body "name" = Normal vn ->
     get req_body "email" = Normal ve ->
     get req_body "message" = Normal vm ->
     truthy vn && truthy ve && truthy vm = true ->
     length_gt vn 255 = Normal false ->
     length_gt ve 255 = Normal false ->
     is_string vn && is_string ve && is_string vm = false ->
     let o := handle env w (POST_messages req_body) d in
     status (response o) = 500%Z
     /\ response o = internal_error "Failed to create message"
     /\ queries o = []
     /\ db_after o = d
     /\ exists msg, caught_error o = Some (TypeError msg))
  /\ (forall q, length_gt (JNum q) 255 = Normal false)
  /\ (forall b, length_gt (JBool b) 255 = Normal false)
  /\ (forall props, lookup "length" props = JUndefined ->
                    length_gt (JObj props) 255 = Normal false)
  /\ (forall items, (List.length items <= 255)%nat ->
                    length_gt (JArr items) 255 = Normal false).
Proof.
  split; [|split; [|split; [|split]]].
  - intros env w d req_body vn ve vm Gn Ge Gm P Ln Le S o.
    destruct (post_trim_throws env w d _ _ _ _ Gn Ge Gm P Ln Le S) as (msg & E).
    subst o. rewrite E. simpl. repeat split. exists msg. reflexivity.
  - intros q. apply length_gt_no_length. reflexivity.
  - intros b. apply length_gt_no_length. reflexivity.
  - intros props H. apply length_gt_no_length. simpl. rewrite H. reflexivity.
  - apply length_gt_array.
Qed.

(** ** Inserting *)

Lemma varchar_fits (k : nat) (s : string) :
  (String.length s <= k)%nat -> varchar k s = Some s.
Proof.
  intros H. unfold varchar. destruct (Nat.leb_spec (String.length s) k); [reflexivity | lia].
Qed.

Lemma no_room_iff k l : existsb (has_id k) l = false <-> ~ In k (map id l).
Proof.
  induction l as [|x r IH]; simpl; [tauto|].
  unfold has_id at 1. destruct (Z.eqb_spec (id x) k) as [E|N]; simpl.
  - split; [discriminate | intros H; exfalso; apply H; left; exact E].
  - rewrite IH. tauto.
Qed.

(** An INSERT of strings that fit their columns, check by check. *)
Lemma exec_insert w d n e m :
  (String.length n <= 255)%nat -> (String.length e <= 255)%nat ->
  exec w (InsertMessage n e m) d
  = if negb (no_nul n && no_nul e && no_nul m) then (Throw invalid_byte_sequence, d)
    else if (int4_max <? messages_id_seq d)%Z then (Throw sequence_exhausted, d)
    else if existsb (has_id (messages_id_seq d)) (messages d)
    then (Throw duplicate_key, skipped d)
    else (Normal {| rows := [row_json (new_row w d n e m)]; rowCount := 1 |},
          with_row d (new_row w d n e m)).
Proof.
  intros Ln Le. unfold exec. rewrite (varchar_fits 255 n Ln), (varchar_fits 255 e Le).
  reflexivity.
Qed.

Lemma exec_insert_accepted w d n e m :
  (String.length n <= 255)%nat -> (String.length e <= 255)%nat ->
  no_nul n = true -> no_nul e = true -> no_nul m = true ->
  has_room d ->
  exec w (InsertMessage n e m) d
  = (Normal {| rows := [row_json (new_row w d n e m)]; rowCount := 1 |},
     with_row d (new_row w d n e m)).
Proof.
  intros Ln Le Nn Ne Nm [Hmax Hfresh]. rewrite (exec_insert w d n e m Ln Le).
  rewrite Nn, Ne, Nm. simpl.
  destruct (Z.ltb_spec int4_max (messages_id_seq d)); [lia|].
  apply no_room_iff in Hfresh. rewrite Hfresh. reflexivity.
Qed.

(** Whatever its parameters, an INSERT leaves the table as it was, takes a
    value from the sequence without storing a row, or stores one row under
    an [id] that no row had. *)
Lemma exec_insert_effect w d n e m :
  (exists err, exec w (InsertMessage n e m) d = (Throw err, d))
  \/ (exists err, exec w (InsertMessage n e m) d = (Throw err, skipped d))
  \/ (exists n' e',
        exec w (InsertMessage n e m) d
        = (Normal {| rows := [row_json (new_row w d n' e' m)]; rowCount := 1 |},
           with_row d (new_row w d n' e' m))).
Proof.
  unfold exec.
  destruct (negb (no_nul n && no_nul e && no_nul m)); [left; eexists; reflexivity|].
  destruct (varchar 255 n) as [n'|]; [|left; eexists; reflexivity].
  destruct (varchar 255 e) as [e'|]; [|left; eexists; reflexivity].
  destruct (int4_max <? messages_id_seq d)%Z; [left; eexists; reflexivity|].
  destruct (existsb (has_id (messages_id_seq d)) (messages d));
    [right; left; eexists; reflexivity|].
  right. right. exists n', e'. reflexivity.
Qed.

Lemma no_nul_trimStart (s : string) : no_nul s = true -> no_nul (trimStart s) = true.
Proof.
  induction s as [|c r IH]; simpl; [reflexivity|]. intros H.
  destruct (is_white_space c); [|exact H].
  apply andb_prop in H as [_ H]. apply IH. exact H.
Qed.

Lemma no_nul_trimEnd (s : string) : no_nul s = true -> no_nul (trimEnd s) = true.
Proof.
  induction s as [|c r IH]; [reflexivity|]. intros H.
  change (no_nul (String c r)) with (negb (nat_of_ascii c =? 0)%nat && no_nul r) in H.
  apply andb_prop in H as [Hc Hr]. specialize (IH Hr).
  simpl trimEnd. destruct (trimEnd r) as [|a b].
  - destruct (is_white_space c); [reflexivity|]. simpl. rewrite Hc. reflexivity.
  - change (no_nul (String c (String a b)))
      with (negb (nat_of_ascii c =? 0)%nat && no_nul (String a b)).
    rewrite Hc, IH. reflexivity.
Qed.

(** Trimming takes white space away, and the character of code 0 is none. *)
Lemma no_nul_trim (s : string) : no_nul s = true -> no_nul (trim s) = true.
Proof. intros H. unfold trim. apply no_nul_trimEnd, no_nul_trimStart, H. Qed.

Lemma trim_nonempty_truthy (s : string) : trim s <> "" -> truthy (JStr s) = true.
Proof. destruct s; simpl; [intros H; exfalso; apply H; reflexivity | reflexivity]. Qed.

Lemma length_gt_string_le (s : string) :
  (String.length s <= 255)%nat -> length_gt (JStr s) 255 = Normal false.
Proof.
  intros H. rewrite length_gt_string. f_equal.
  destruct (Nat.ltb_spec 255 (String.length s)); [lia | reflexivity].
Qed.

Lemma post_valid_outcome env w d req_body (n e m : string) :
  get req_body "name" = Normal (JStr n) ->
  get req_body "email" = Normal (JStr e) ->
  get req_body "message" = Normal (JStr m) ->
  trim n <> "" -> trim e <> "" -> trim m <> "" ->
  (String.length n <= 255)%nat -> (String.length e <= 255)%nat ->
  no_nul n = true -> no_nul e = true -> no_nul m = true ->
  fault w 0 = None ->
  has_room d ->
  let row := new_row w d (trim n) (trim e) (trim m) in
  handle env w (POST_messages req_body) d =
    {| response := res_json 201 [("success", JBool true);
                                 ("message", JStr "Message created successfully");
                                 ("data", row_json row)];
       db_after := with_row d row;
       queries := [InsertMessage (trim n) (trim e) (trim m)];
       caught_error := None |}.
Proof.
  intros Gn Ge Gm Bn Be Bm Ln Le Nn Ne Nm F R row.
  assert (P : truthy (JStr n) && truthy (JStr e) && truthy (JStr m) = true).
  { rewrite !trim_nonempty_truthy by assumption. reflexivity. }
  rewrite (post_insert env w d _ _ _ _ Gn Ge Gm P
             (length_gt_string_le n Ln) (length_gt_string_le e Le) n e m
             eq_refl eq_refl eq_refl).
  rewrite F.
  rewrite (exec_insert_accepted w d (trim n) (trim e) (trim m))
    by (try apply no_nul_trim; try assumption;
        pose proof (trim_length n); pose proof (trim_length e); lia).
  reflexivity.
Qed.

Lemma kept_ids_distinct (keep : Message -> bool) (table : list Message) :
  NoDup (map id table) -> NoDup (map id (filter keep table)).
Proof.
  induction table as [|row table IH]; simpl; intros H; [constructor|].
  inversion H as [|? ? Hrow Htable]; subst.
  destruct (keep row); simpl; [constructor|]; auto.
  intros Hin. apply Hrow. apply in_map_iff in Hin as (x & <- & Hx).
  apply in_map. apply filter_In in Hx. tauto.
Qed.

Lemma Forall_filter {A : Type} (P : A -> Prop) (p : A -> bool) (l : list A) :
  Forall P l -> Forall P (filter p l).
Proof.
  intros H. apply Forall_forall. intros x Hx. apply filter_In in Hx as [Hx _].
  revert x Hx. apply Forall_forall. exact H.
Qed.

Lemma NoDup_snoc {A : Type} (l : list A) (x : A) :
  NoDup l -> ~ In x l -> NoDup (l ++ [x]).
Proof.
  induction l as [|a l IH]; simpl; intros Hn Hx.
  - constructor; [simpl; tauto | constructor].
  - inversion Hn as [|? ? Ha Hl]; subst. constructor.
    + rewrite in_app_iff. simpl. intros [H|[H|[]]]; [tauto | subst; tauto].
    + apply IH; tauto.
Qed.

Lemma with_row_wf w d n e m : db_wf d -> db_wf (with_row d (new_row w d n e m)).
Proof.
  intros [Hn Hf]. split; simpl.
  - rewrite map_app. simpl. apply NoDup_snoc; [exact Hn|].
    intros Hin. apply in_map_iff in Hin as (x & E & Hx).
    rewrite Forall_forall in Hf. specialize (Hf x Hx). lia.
  - apply Forall_app. split.
    + eapply Forall_impl; [|exact Hf]. simpl. intros; lia.
    + constructor; [simpl; lia | constructor].
Qed.

(** Under the primary key as [db_wf] has it, the next value of the sequence
    is the [id] of no row. *)
Lemma wf_has_room d : db_wf d -> (messages_id_seq d <= int4_max)%Z -> has_room d.
Proof.
  intros [_ Hf] Hmax. split; [exact Hmax|].
  intros Hin. apply in_map_iff in Hin as (x & E & Hx).
  rewrite Forall_forall in Hf. specialize (Hf x Hx). lia.
Qed.

(** ** What a request does to the table *)

Lemma insert_effect w d n e m (o : Outcome) :
  status (response o) <> 201%Z ->
  db_after o = snd (exec w (InsertMessage n e m) d) ->
  Effect w d o.
Proof.
  intros St E.
  destruct (exec_insert_effect w d n e m) as [(err & X)|[(err & X)|(n' & e' & X)]];
    rewrite X in E; simpl in E.
  - apply Unchanged; assumption.
  - apply Skipped; assumption.
  - apply Inserted with (n := n') (e := e') (m := m); [exact E | right; exact St].
Qed.

Lemma post_effect env w req_body d : Effect w d (handle env w (POST_messages req_body) d).
Proof.
  run_handler.
  destruct (get req_body "name") as [vn|]; [|apply Unchanged; simpl; [reflexivity|discriminate]].
  destruct (get req_body "email") as [ve|]; [|apply Unchanged; simpl; [reflexivity|discriminate]].
  destruct (get req_body "message") as [vm|]; [|apply Unchanged; simpl; [reflexivity|discriminate]].
  destruct (negb (truthy vn) || negb (truthy ve) || negb (truthy vm));
    [apply Unchanged; simpl; [reflexivity|discriminate]|].
  destruct (length_gt vn 255) as [[|]|];
    try (apply Unchanged; simpl; [reflexivity|discriminate]).
  destruct (length_gt ve 255) as [[|]|];
    try (apply Unchanged; simpl; [reflexivity|discriminate]).
  destruct (call_trim "name" vn) as [n|]; [|apply Unchanged; simpl; [reflexivity|discriminate]].
  destruct (call_trim "email" ve) as [e|]; [|apply Unchanged; simpl; [reflexivity|discriminate]].
  destruct (call_trim "message" vm) as [m|]; [|apply Unchanged; simpl; [reflexivity|discriminate]].
  simpl List.length.
  destruct (fault w 0).
  - destruct (applied w 0).
    + apply (insert_effect w d n e m); simpl; [discriminate | reflexivity].
    + apply Unchanged; simpl; [reflexivity | discriminate].
  - destruct (exec_insert_effect w d n e m) as [(err & X)|[(err & X)|(n' & e' & X)]];
      rewrite X.
    + apply Unchanged; simpl; [reflexivity | discriminate].
    + apply Skipped; simpl; [reflexivity | discriminate].
    + apply Inserted with (n := n') (e := e') (m := m); [reflexivity | left; reflexivity].
Qed.

Lemma delete_effect env w param d : Effect w d (handle env w (DELETE_message param) d).
Proof.
  run_handler. simpl List.length. unfold exec.
  destruct (fault w 0).
  - destruct (applied w 0); [|apply Unchanged; simpl; [reflexivity|discriminate]].
    destruct (int4in param) as [k|].
    + apply Deleted with (k := k); simpl; [reflexivity | discriminate].
    + apply Unchanged; simpl; [reflexivity | discriminate].
  - destruct (int4in param) as [k|];
      [|apply Unchanged; simpl; [reflexivity|discriminate]].
    cbv [rowCount].
    destruct (List.length (filter (has_id k) (messages d)) =? 0)%nat;
      apply Deleted with (k := k); simpl; try reflexivity; discriminate.
Qed.

Lemma read_effect env w req d :
  (forall b, req <> POST_messages b) -> (forall p, req <> DELETE_message p) ->
  db_after (handle env w req d) = d /\ status (response (handle env w req d)) <> 201%Z.
Proof.
  intros Hp Hd. destruct req; try (exfalso; eapply Hp; reflexivity);
    try (exfalso; eapply Hd; reflexivity); run_handler; split_cases; simpl;
    split; try reflexivity; discriminate.
Qed.

Lemma handle_effect env w req d : Effect w d (handle env w req d).
Proof.
  destruct req;
    try (apply Unchanged; apply read_effect; intros; discriminate).
  - apply post_effect.
  - apply delete_effect.
Qed.

Lemma effect_seq w d o :
  Effect w d o -> (messages_id_seq d <= messages_id_seq (db_after o))%Z.
Proof. intros [E _|n e m E _|E _|k E _]; rewrite E; simpl; lia. Qed.

Lemma effect_wf w d o : Effect w d o -> db_wf d -> db_wf (db_after o).
Proof.
  intros [E _|n e m E _|E _|k E _] H; rewrite E.
  - exact H.
  - apply with_row_wf. exact H.
  - destruct H as [Hn Hf]. split; simpl; [exact Hn|].
    eapply Forall_impl; [|exact Hf]. simpl. intros; lia.
  - destruct H as [Hn Hf]. split; simpl.
    + apply kept_ids_distinct. exact Hn.
    + apply Forall_filter. exact Hf.
Qed.

Lemma not_201_no_id (o : Outcome) : status (response o) <> 201%Z -> new_id o = None.
Proof.
  intros S. unfold new_id.
  destruct (Z.eqb_spec (status (response o)) 201); [contradiction | reflexivity].
Qed.

Lemma effect_new_id w d o :
  Effect w d o ->
  new_id o = None
  \/ (new_id o = Some (messages_id_seq d)
      /\ messages_id_seq (db_after o) = (messages_id_seq d + 1)%Z).
Proof.
  intros [E S|n e m E [R|S]|E S|k E S]; try (left; apply not_201_no_id; exact S).
  right. unfold new_id. rewrite E, R. split; reflexivity.
Qed.

Lemma last_cons {A : Type} (x : A) (l : list A) (d : A) : last (x :: l) d = last l x.
Proof.
  revert x d. induction l as [|y l IH]; intros x d; [reflexivity|].
  change (last (x :: y :: l) d) with (last (y :: l) d). rewrite !IH. reflexivity.
Qed.

Lemma final_db_cons d o outs : final_db d (o :: outs) = final_db (db_after o) outs.
Proof. unfold final_db. simpl map. apply last_cons. Qed.

(** Along any sequence of requests the ids of the 201 responses are taken
    from the sequence in order, and the primary key is kept. *)
Lemma run_new_ids env steps : forall d,
  Forall (fun i => (messages_id_seq d <= i)%Z) (new_ids (run env steps d))
  /\ StronglySorted Z.lt (new_ids (run env steps d))
  /\ (db_wf d -> db_wf (final_db d (run env steps d))).
Proof.
  induction steps as [|[w req] rest IH]; intros d.
  - simpl. split; [constructor|]. split; [constructor|].
    unfold final_db; simpl; tauto.
  - simpl run. set (o := handle env w req d).
    pose proof (handle_effect env w req d) as Eff. fold o in Eff.
    destruct (IH (db_after o)) as (Hlow & Hsorted & Hwf).
    pose proof (effect_seq _ _ _ Eff) as Hseq.
    rewrite final_db_cons. simpl new_ids.
    destruct (effect_new_id _ _ _ Eff) as [N|[N S]]; rewrite N.
    + split; [|split].
      * eapply Forall_impl; [|exact Hlow]. simpl. intros; lia.
      * exact Hsorted.
      * intros Hd. apply Hwf. eapply effect_wf; eauto.
    + split; [|split].
      * constructor; [lia|]. eapply Forall_impl; [|exact Hlow]. simpl. intros; lia.
      * constructor; [exact Hsorted|].
        eapply Forall_impl; [|exact Hlow]. simpl. intros; lia.
      * intros Hd. apply Hwf. eapply effect_wf; eauto.
Qed.

(** C2, as the code has it: a body of three strings, none empty after
    trimming, with [name] and [email] of at most 255 characters as they are
    received and no character of code 0 in any of the three, is answered
    with 201 when the INSERT is not rejected by the infrastructure and the
    table takes one more row (the sequence has a value to give and no row
    has that value as [id]); the row reported is the row stored: the next
    value of the sequence for [id], the trimmed strings, the same instant in
    [created_at] and [updated_at].  Along any sequence of requests on a
    table that keeps its primary key, the ids reported by the 201 responses
    increase strictly, none of them is the [id] of a row stored before, and
    no two stored rows ever share an [id]. *)
Theorem post_valid_created :
  (forall env w d req_body n e m,
     get req_body "name" = Normal (JStr n) ->
     get req_body "email" = Normal (JStr e) ->
     get req_body "message" = Normal (JStr m) ->
     trim n <> "" -> trim e <> "" -> trim m <> "" ->
     (String.length n <= 255)%nat -> (String.length e <= 255)%nat ->
     no_nul n = true -> no_nul e = true -> no_nul m = true ->
     fault w 0 = None ->
     has_room d ->
     let o := handle env w (POST_messages req_body) d in
     let row := {| id := messages_id_seq d;
                   name := trim n; email := trim e; message := trim m;
                   created_at := CURRENT_TIMESTAMP w;
                   updated_at := CURRENT_TIMESTAMP w |} in
     status (response o) = 201%Z
     /\ field "success" (body (response o)) = JBool true
     /\ field "data" (body (response o)) = row_json row
     /\ messages (db_after o) = messages d ++ [row]
     /\ new_id o = Some (id row)
     /\ field "created_at" (field "data" (body (response o)))
        = field "updated_at" (field "data" (body (response o))))
  /\ (forall env steps d,
        db_wf d ->
        StronglySorted Z.lt (new_ids (run env steps d))
        /\ Forall (fun i => ~ In i (map id (messages d))) (new_ids (run env steps d))
        /\ db_wf (final_db d (run env steps d))).
Proof.
  split.
  - intros env w d req_body n e m Gn Ge Gm Bn Be Bm Ln Le Nn Ne Nm F R o row. subst o.
    rewrite (post_valid_outcome env w d req_body n e m
               Gn Ge Gm Bn Be Bm Ln Le Nn Ne Nm F R).
    repeat split.
  - intros env steps d H.
    destruct (run_new_ids env steps d) as (Hlow & Hsorted & Hwf).
    split; [exact Hsorted|]. split; [|apply Hwf; exact H].
    apply Forall_forall. intros i Hi Hin.
    rewrite Forall_forall in Hlow. specialize (Hlow i Hi).
    destruct H as [_ Hf]. apply in_map_iff in Hin as (x & <- & Hx).
    rewrite Forall_forall in Hf. specialize (Hf x Hx). lia.
Qed.

(** ** Listing *)

Lemma insert_desc_perm first m l : Permutation (insert_desc first m l) (m :: l).
Proof.
  induction l as [|x r IH]; simpl; [reflexivity|].
  destruct (created_at x <? created_at m)%Z; [reflexivity|].
  destruct ((created_at x =? created_at m)%Z && first m x); [reflexivity|].
  rewrite IH. apply perm_swap.
Qed.

Lemma order_by_perm first l : Permutation (order_by_created_at_desc first l) l.
Proof.
  induction l as [|m l IH]; simpl; [reflexivity|].
  rewrite insert_desc_perm. constructor. exact IH.
Qed.

Lemma insert_desc_sorted first m l :
  StronglySorted newer_or_same l -> StronglySorted newer_or_same (insert_desc first m l).
Proof.
  induction l as [|x r IH]; simpl; intros H.
  - repeat constructor.
  - inversion H as [|? ? Hr Hx]; subst.
    assert (before : (created_at x <= created_at m)%Z ->
                     StronglySorted newer_or_same (m :: x :: r)).
    { intros Le. constructor; [exact H|]. constructor; [unfold newer_or_same; lia|].
      eapply Forall_impl; [|exact Hx]. unfold newer_or_same. intros; lia. }
    destruct (Z.ltb_spec (created_at x) (created_at m)) as [Lt|Ge]; [apply before; lia|].
    destruct (Z.eqb_spec (created_at x) (created_at m)) as [Eq|Ne]; simpl.
    + destruct (first m x); [apply before; lia|].
      constructor; [apply IH; exact Hr|].
      apply Forall_forall. intros y Hy.
      apply (Permutation_in _ (insert_desc_perm first m r)) in Hy as [<-|Hy].
      * unfold newer_or_same. lia.
      * rewrite Forall_forall in Hx. apply Hx. exact Hy.
    + constructor; [apply IH; exact Hr|].
      apply Forall_forall. intros y Hy.
      apply (Permutation_in _ (insert_desc_perm first m r)) in Hy as [<-|Hy].
      * unfold newer_or_same. lia.
      * rewrite Forall_forall in Hx. apply Hx. exact Hy.
Qed.

Lemma order_by_sorted first l :
  StronglySorted newer_or_same (order_by_created_at_desc first l).
Proof.
  induction l as [|m l IH]; simpl; [constructor|]. apply insert_desc_sorted. exact IH.
Qed.

Lemma insert_desc_oldest first m l :
  Forall (fun x => (created_at m < created_at x)%Z) l -> insert_desc first m l = l ++ [m].
Proof.
  induction l as [|x r IH]; simpl; intros H; [reflexivity|].
  inversion H; subst.
  destruct (Z.ltb_spec (created_at x) (created_at m)); [lia|].
  destruct (Z.eqb_spec (created_at x) (created_at m)); [lia|]. simpl.
  rewrite IH by assumption. reflexivity.
Qed.

(** Rows stored at strictly increasing instants are listed in the reverse
    of the heap order, whatever the database does with equal keys. *)
Lemma order_by_increasing first l :
  StronglySorted older l -> order_by_created_at_desc first l = rev l.
Proof.
  induction l as [|m l IH]; simpl; intros H; [reflexivity|].
  inversion H as [|? ? Hl Hm]; subst.
  rewrite IH by assumption. apply insert_desc_oldest.
  apply Forall_forall. intros x Hx. apply in_rev in Hx.
  rewrite Forall_forall in Hm. specialize (Hm x Hx). unfold older in Hm. lia.
Qed.

Lemma get_form (n e m : string) :
  get (form (Some n) (Some e) (Some m)) "name" = Normal (JStr n)
  /\ get (form (Some n) (Some e) (Some m)) "email" = Normal (JStr e)
  /\ get (form (Some n) (Some e) (Some m)) "message" = Normal (JStr m).
Proof. repeat split. Qed.

Lemma run_posts env posts : forall d,
  db_wf d ->
  (messages_id_seq d + Z.of_nat (List.length posts) <= int4_max + 1)%Z ->
  Forall valid_post posts ->
  final_db d (run env (map post_of posts) d)
  = {| messages := messages d ++ posted_rows (messages_id_seq d) posts;
       messages_id_seq := (messages_id_seq d + Z.of_nat (List.length posts))%Z |}.
Proof.
  induction posts as [|[w [[n e] m]] rest IH]; intros d W B V.
  - unfold final_db. simpl. rewrite app_nil_r, Z.add_0_r. destruct d; reflexivity.
  - inversion V as [|? ? Vp Vrest]; subst.
    simpl in Vp. destruct Vp as (Bn & Be & Bm & Ln & Le & Nn & Ne & Nm & F).
    destruct (get_form n e m) as (Gn & Ge & Gm).
    assert (R : has_room d).
    { apply wf_has_room; [exact W|]. simpl List.length in B. lia. }
    simpl map. simpl run. rewrite final_db_cons.
    rewrite (post_valid_outcome env w d _ n e m Gn Ge Gm Bn Be Bm Ln Le Nn Ne Nm F R).
    cbv [db_after]. rewrite (IH _ (with_row_wf w d _ _ _ W)); [|simpl in *; lia|exact Vrest].
    unfold with_row, new_row. simpl.
    rewrite <- app_assoc. simpl. f_equal. lia.
Qed.

Lemma posted_rows_instants next posts :
  map created_at (posted_rows next posts) = map instant posts.
Proof.
  revert next. induction posts as [|[w [[n e] m]] rest IH]; intros next; simpl;
    [reflexivity | rewrite IH; reflexivity].
Qed.

Lemma older_of_instants l :
  StronglySorted Z.lt (map created_at l) -> StronglySorted older l.
Proof.
  induction l as [|x r IH]; simpl; intros H; [constructor|].
  inversion H as [|? ? Hr Hx]; subst. constructor; [apply IH; exact Hr|].
  rewrite Forall_map in Hx. exact Hx.
Qed.

(** C3, as the code has it: when the SELECT is not rejected, the answer is
    200 with every stored row, each row no older than the rows after it;
    rows of the same instant follow each other in the order the database
    chooses.  When the rows were stored at strictly increasing instants the
    listing is the reverse of the order of insertion, whatever the database
    chooses, so that valid posts made one after the other at strictly
    increasing instants on the empty table are listed last one first; an
    empty table gives 200 with an empty [data]. *)
Theorem get_messages_newest_first :
  (forall env w d,
     fault w 0 = None ->
     let o := handle env w GET_messages d in
     let listed := order_by_created_at_desc (listed_first w) (messages d) in
     response o =
       {| status := 200;
          body := JObj [("success", JBool true);
                        ("count", JNum (inject_Z (Z.of_nat (List.length (messages d)))));
                        ("data", JArr (map row_json listed))] |}
     /\ Permutation listed (messages d)
     /\ StronglySorted newer_or_same listed
     /\ (StronglySorted older (messages d) -> listed = rev (messages d))
     /\ (messages d = [] -> field "data" (body (response o)) = JArr [])
     /\ db_after o = d)
  /\ (forall env posts w,
        Forall valid_post posts ->
        (Z.of_nat (List.length posts) <= int4_max)%Z ->
        StronglySorted Z.lt (map instant posts) ->
        fault w 0 = None ->
        let d := final_db empty_db (run env (map post_of posts) empty_db) in
        messages d = posted_rows 1 posts
        /\ field "data" (body (response (handle env w GET_messages d)))
           = JArr (map row_json (rev (posted_rows 1 posts)))).
Proof.
  assert (listing : forall env w d, fault w 0 = None ->
            response (handle env w GET_messages d)
            = {| status := 200;
                 body := JObj [("success", JBool true);
                               ("count",
                                JNum (inject_Z (Z.of_nat (List.length (messages d)))));
                               ("data", JArr (map row_json
                                                (order_by_created_at_desc (listed_first w)
                                                   (messages d))))] |}
            /\ db_after (handle env w GET_messages d) = d).
  { intros env w d F. run_handler. simpl List.length. rewrite F.
    unfold exec. cbv [rows]. simpl. split; [|reflexivity].
    rewrite length_map.
    rewrite (Permutation_length (order_by_perm (listed_first w) (messages d))).
    reflexivity. }
  split.
  - intros env w d F o listed. subst o listed.
    destruct (listing env w d F) as (R & D). rewrite R.
    split; [reflexivity|]. split; [apply order_by_perm|].
    split; [apply order_by_sorted|]. split; [apply order_by_increasing|].
    split; [|exact D]. intros E. rewrite E. reflexivity.
  - intros env posts w V B Hs F d. subst d.
    assert (wf : db_wf empty_db) by (split; constructor).
    rewrite (run_posts env posts empty_db wf); [|simpl messages_id_seq; lia|exact V].
    split; [reflexivity|].
    match goal with
    | |- context [handle env w GET_messages ?x] =>
        destruct (listing env w x F) as (R & _); rewrite R
    end.
    simpl. f_equal. f_equal. apply order_by_increasing.
    apply older_of_instants. rewrite posted_rows_instants. exact Hs.
Qed.

(** ** Reading and deleting by id *)

Lemma filter_has_id_none k l :
  (forall m, In m l -> id m <> k) -> filter (has_id k) l = [].
Proof.
  induction l as [|x r IH]; simpl; intros H; [reflexivity|].
  unfold has_id at 1. destruct (Z.eqb_spec (id x) k) as [E|_].
  - exfalso. apply (H x); auto.
  - apply IH. intros m Hm. apply H. right. exact Hm.
Qed.

Lemma filter_has_id_unique k l m :
  NoDup (map id l) -> In m l -> id m = k -> filter (has_id k) l = [m].
Proof.
  induction l as [|x r IH]; simpl; intros Hn Hin E; [contradiction|].
  inversion Hn as [|? ? Hx Hr]; subst.
  unfold has_id at 1. destruct Hin as [->|Hin].
  - rewrite Z.eqb_refl. f_equal. apply filter_has_id_none.
    intros y Hy Ey. apply Hx. rewrite <- Ey. apply in_map. exact Hy.
  - destruct (Z.eqb_spec (id x) (id m)) as [Ex|_].
    + exfalso. apply Hx. rewrite Ex. apply in_map. exact Hin.
    + apply IH; auto.
Qed.

Lemma filter_other_ids_all k l :
  (forall m, In m l -> id m <> k) -> filter (fun m => negb (has_id k m)) l = l.
Proof.
  induction l as [|x r IH]; simpl; intros H; [reflexivity|].
  unfold has_id at 1. destruct (Z.eqb_spec (id x) k) as [E|_]; simpl.
  - exfalso. apply (H x); auto.
  - f_equal. apply IH. intros m Hm. apply H. right. exact Hm.
Qed.

Lemma in_without_id k d m :
  In m (messages (without_id k d)) <-> In m (messages d) /\ id m <> k.
Proof.
  unfold without_id. simpl. rewrite filter_In. unfold has_id.
  destruct (Z.eqb_spec (id m) k); simpl; intuition congruence.
Qed.

Lemma get_message_outcome env w d param k :
  int4in param = Some k -> fault w 0 = None ->
  handle env w (GET_message param) d =
    quiet_after [SelectMessageById param] d
      (match filter (has_id k) (messages d) with
       | [] => not_found "Message not found"
       | m :: _ => res_json 200 [("success", JBool true); ("data", row_json m)]
       end).
Proof.
  intros I F. run_handler. simpl List.length. rewrite F. unfold exec. rewrite I.
  cbv [rows]. destruct (filter (has_id k) (messages d)); reflexivity.
Qed.

Lemma delete_message_outcome env w d param k :
  int4in param = Some k -> fault w 0 = None ->
  handle env w (DELETE_message param) d =
    quiet_after [DeleteMessageById param] (without_id k d)
      (match filter (has_id k) (messages d) with
       | [] => not_found "Message not found"
       | _ :: _ => res_json 200 [("success", JBool true);
                                 ("message", JStr "Message deleted successfully")]
       end).
Proof.
  intros I F. run_handler. simpl List.length. rewrite F. unfold exec. rewrite I.
  cbv [rowCount]. destruct (filter (has_id k) (messages d)); reflexivity.
Qed.

(** C4, as the code has it: for a parameter that PostgreSQL reads as the
    integer [k], and a SELECT that is not rejected, the answer is 200 with
    the stored row whose [id] is [k] when there is one, and 404 when there
    is none; the table is as before. *)
Theorem get_message_by_id env w d param k :
  int4in param = Some k -> fault w 0 = None -> db_wf d ->
  let o := handle env w (GET_message param) d in
  (forall m, In m (messages d) -> id m = k ->
     response o = {| status := 200;
                     body := JObj [("success", JBool true); ("data", row_json m)] |})
  /\ ((forall m, In m (messages d) -> id m <> k) ->
      status (response o) = 404%Z /\ response o = not_found "Message not found")
  /\ db_after o = d.
Proof.
  intros I F [Hn _] o. subst o. rewrite (get_message_outcome env w d param k I F).
  split; [|split].
  - intros m Hin E. rewrite (filter_has_id_unique k _ m Hn Hin E). reflexivity.
  - intros H. rewrite (filter_has_id_none k _ H). split; reflexivity.
  - reflexivity.
Qed.

(** C5, as the code has it: for a parameter that PostgreSQL reads as the
    integer [k], and a DELETE that is not rejected: when a row has that
    [id] the answer is 200, that row is gone and every other row is kept in
    place; a later GET or DELETE with the same parameter is answered with
    404; when no row has that [id] the answer is 404 and the table is as
    before. *)
Theorem delete_message_by_id env w d param k :
  int4in param = Some k -> fault w 0 = None -> db_wf d ->
  let o := handle env w (DELETE_message param) d in
  ((exists m, In m (messages d) /\ id m = k) ->
     response o = {| status := 200;
                     body := JObj [("success", JBool true);
                                   ("message", JStr "Message deleted successfully")] |})
  /\ ((forall m, In m (messages d) -> id m <> k) ->
      status (response o) = 404%Z /\ response o = not_found "Message not found"
      /\ db_after o = d)
  /\ messages (db_after o) = filter (fun m => negb (id m =? k)%Z) (messages d)
  /\ (forall m, In m (messages (db_after o)) <-> In m (messages d) /\ id m <> k)
  /\ (forall w', fault w' 0 = None ->
        response (handle env w' (GET_message param) (db_after o))
          = not_found "Message not found"
        /\ response (handle env w' (DELETE_message param) (db_after o))
          = not_found "Message not found").
Proof.
  intros I F [Hn _] o. subst o. rewrite (delete_message_outcome env w d param k I F).
  cbv [db_after response quiet_after].
  split; [|split; [|split; [|split]]].
  - intros (m & Hin & E). rewrite (filter_has_id_unique k _ m Hn Hin E). reflexivity.
  - intros H. rewrite (filter_has_id_none k _ H). split; [reflexivity|]. split; [reflexivity|].
    unfold without_id. rewrite (filter_other_ids_all k _ H). destruct d; reflexivity.
  - reflexivity.
  - intros m. apply in_without_id.
  - intros w' F'.
    assert (gone : filter (has_id k) (messages (without_id k d)) = []).
    { apply filter_has_id_none. intros m Hm. apply in_without_id in Hm. tauto. }
    rewrite (get_message_outcome env w' _ param k I F').
    rewrite (delete_message_outcome env w' _ param k I F').
    cbv [response quiet_after]. rewrite gone. split; reflexivity.
Qed.

(** ** Errors *)

(** C9: a parameter that PostgreSQL does not read as an integer is sent as
    it is, the statement is rejected, and both routes answer 500, with the
    table as before. *)
Theorem non_integer_id_500 env w d param :
  int4in param = None ->
  let g := handle env w (GET_message param) d in
  let x := handle env w (DELETE_message param) d in
  (status (response g) = 500%Z
   /\ queries g = [SelectMessageById param] /\ db_after g = d
   /\ exists e, caught_error g = Some (DatabaseError e))
  /\ (status (response x) = 500%Z
      /\ queries x = [DeleteMessageById param] /\ db_after x = d
      /\ exists e, caught_error x = Some (DatabaseError e)).
Proof.
  intros I g x. subst g x. run_handler. simpl List.length. unfold exec. rewrite I.
  destruct (fault w 0); [destruct (applied w 0)|]; simpl; repeat split;
    eexists; reflexivity.
Qed.

(** What every handler answers when it catches the rejection of a
    statement, the diagnostic routes included. *)
Lemma caught_rejection_reply env w req d msg :
  caught_error (handle env w req d) = Some (DatabaseError msg) ->
  status (response (handle env w req d)) = 500%Z
  /\ response (handle env w req d) = storage_failure_reply env req msg.
Proof.
  destruct req; run_handler; split_cases; simpl; intros H;
    try discriminate H; try (injection H as ->); try rewrite Heqb;
    split; reflexivity.
Qed.

(** C8, as the code has it: on the routes of the messages API, whenever a
    handler catches the rejection of a statement, with message [msg], the
    answer is 500 with a fixed [error] and [message]; [msg] is in the answer
    (as [details]) exactly on GET /api/messages in development, and in no
    environment on GET /api/messages/:id, POST and DELETE. *)
Theorem storage_failure_response env w req d msg :
  req <> GET_test_db -> req <> GET_check_tables ->
  caught_error (handle env w req d) = Some (DatabaseError msg) ->
  let r := response (handle env w req d) in
  status r = 500%Z
  /\ field "success" (body r) = JBool false
  /\ field "error" (body r) = JStr "Internal server error"
  /\ (exists generic, field "message" (body r) = JStr generic
                      /\ generic = match req with
                                   | GET_messages => "Failed to fetch messages"
                                   | GET_message _ => "Failed to fetch message"
                                   | POST_messages _ => "Failed to create message"
                                   | DELETE_message _ => "Failed to delete message"
                                   | _ => "Something went wrong"
                                   end)
  /\ (keys (body r) = ["success"; "error"; "message"; "details"]
      /\ field "details" (body r) = JStr msg
      /\ req = GET_messages /\ is_development env = true
      \/ keys (body r) = ["success"; "error"; "message"]
         /\ (req <> GET_messages \/ is_development env = false)).
Proof.
  intros Ht Hc H r. subst r.
  destruct (caught_rejection_reply env w req d msg H) as (S5 & R). rewrite R.
  destruct req; try congruence; try discriminate H; simpl;
    try (repeat split; try (eexists; split; reflexivity);
         right; split; [reflexivity | left; discriminate]).
  destruct (is_development env); simpl.
  - repeat split; try (eexists; split; reflexivity). left. repeat split.
  - repeat split; try (eexists; split; reflexivity). right. split; [reflexivity | right; reflexivity].
Qed.

(** C7, as the code has it: on every route but /api/check-tables, an answer
    with a status of 400 or more has [success: false], a string [error] and
    a string [message]; it has no other member, except [details] on
    GET /api/messages in development. *)
Theorem error_response_members env w req d :
  req <> GET_check_tables ->
  (400 <= status (response (handle env w req d)))%Z ->
  let b := body (response (handle env w req d)) in
  error_members b
  /\ (keys b = ["success"; "error"; "message"]
      \/ (req = GET_messages /\ is_development env = true
          /\ keys b = ["success"; "error"; "message"; "details"]
          /\ exists s, field "details" b = JStr s)).
Proof.
  intros Hreq. unfold error_members.
  destruct req; try congruence; run_handler; split_cases; simpl; intros H;
    try lia;
    try (split; [repeat split; eexists; reflexivity | left; reflexivity]).
  split; [repeat split; eexists; reflexivity|].
  right. repeat split; eexists; reflexivity.
Qed.

(** ** What requests leave alone *)

Lemma filter_none_keeps_all k l :
  filter (has_id k) l = [] -> filter (fun m => negb (has_id k m)) l = l.
Proof.
  induction l as [|x r IH]; simpl; [reflexivity|].
  destruct (has_id k x); simpl; [discriminate|].
  intros H. rewrite IH by exact H. reflexivity.
Qed.

Lemma without_absent_id k d :
  filter (has_id k) (messages d) = [] -> without_id k d = d.
Proof.
  intros H. unfold without_id. rewrite (filter_none_keeps_all k _ H).
  destruct d; reflexivity.
Qed.

(** A request on a route that is neither POST nor DELETE leaves the table as
    it was and sends no INSERT and no DELETE, in every world. *)
Lemma not_a_write env w req d :
  is_write req = false -> db_after (handle env w req d) = d.
Proof.
  intros H. apply read_effect; intros x E; subst req; discriminate H.
Qed.

Theorem read_routes_keep_table env w req d :
  is_write req = false ->
  db_after (handle env w req d) = d
  /\ forallb is_select (queries (handle env w req d)) = true.
Proof.
  intros H. split; [apply not_a_write; exact H|].
  destruct req; try discriminate H; run_handler; split_cases; reflexivity.
Qed.

(** ** What a POST and a DELETE do to the table *)

(** A POST either ends before its INSERT, with 400 or 500, or sends the
    INSERT of the three trimmed strings, of which [name] and [email] had at
    most 255 characters as they were received. *)
Lemma post_cases env w req_body d :
  (queries (handle env w (POST_messages req_body) d) = []
   /\ db_after (handle env w (POST_messages req_body) d) = d
   /\ (status (response (handle env w (POST_messages req_body) d)) = 400%Z
       \/ status (response (handle env w (POST_messages req_body) d)) = 500%Z))
  \/ exists n e m,
       (String.length n <= 255)%nat /\ (String.length e <= 255)%nat
       /\ handle env w (POST_messages req_body) d
          = after_insert w d (trim n) (trim e) (trim m).
Proof.
  run_handler.
  destruct (get req_body "name") as [vn|]; [|left; repeat split; right; reflexivity].
  destruct (get req_body "email") as [ve|]; [|left; repeat split; right; reflexivity].
  destruct (get req_body "message") as [vm|]; [|left; repeat split; right; reflexivity].
  destruct (negb (truthy vn) || negb (truthy ve) || negb (truthy vm));
    [left; repeat split; left; reflexivity|].
  destruct (length_gt vn 255) as [[|]|] eqn:Ln;
    [left; repeat split; left; reflexivity| |left; repeat split; right; reflexivity].
  destruct (length_gt ve 255) as [[|]|] eqn:Le;
    [left; repeat split; left; reflexivity| |left; repeat split; right; reflexivity].
  destruct vn as [| | | |n| |]; try (left; repeat split; right; reflexivity).
  destruct ve as [| | | |e| |]; try (left; repeat split; right; reflexivity).
  destruct vm as [| | | |m| |]; try (left; repeat split; right; reflexivity).
  cbv [call_trim]. simpl List.length.
  rewrite length_gt_string in Ln, Le.
  injection Ln as Ln. injection Le as Le.
  apply Nat.ltb_ge in Ln. apply Nat.ltb_ge in Le.
  right. exists n, e, m. split; [exact Ln|]. split; [exact Le|].
  unfold after_insert. destruct (fault w 0); [reflexivity|].
  destruct (exec w _ d) as [[r|err] d']; reflexivity.
Qed.

(** What the INSERT of strings that fit their columns comes to: 201 and
    the row stored; 500 and no row stored (the sequence may have moved); or
    500 and the row stored all the same, when the rejection came after the
    server had run the statement. *)
Lemma after_insert_cases w d n e m :
  (String.length n <= 255)%nat -> (String.length e <= 255)%nat ->
  let o := after_insert w d n e m in
  (fault w 0 = None
   /\ response o = created (new_row w d n e m)
   /\ db_after o = with_row d (new_row w d n e m))
  \/ (status (response o) = 500%Z /\ (db_after o = d \/ db_after o = skipped d))
  \/ (status (response o) = 500%Z
      /\ (exists msg, fault w 0 = Some msg) /\ applied w 0 = true
      /\ db_after o = with_row d (new_row w d n e m)).
Proof.
  intros Ln Le. unfold after_insert. rewrite (exec_insert w d n e m Ln Le).
  destruct (fault w 0) as [msg|].
  - destruct (applied w 0); [|right; left; split; [reflexivity | left; reflexivity]].
    destruct (negb (no_nul n && no_nul e && no_nul m));
      [right; left; split; [reflexivity | left; reflexivity]|].
    destruct (int4_max <? messages_id_seq d)%Z;
      [right; left; split; [reflexivity | left; reflexivity]|].
    destruct (existsb (has_id (messages_id_seq d)) (messages d));
      [right; left; split; [reflexivity | right; reflexivity]|].
    right. right. repeat split. exists msg. reflexivity.
  - destruct (negb (no_nul n && no_nul e && no_nul m));
      [right; left; split; [reflexivity | left; reflexivity]|].
    destruct (int4_max <? messages_id_seq d)%Z;
      [right; left; split; [reflexivity | left; reflexivity]|].
    destruct (existsb (has_id (messages_id_seq d)) (messages d));
      [right; left; split; [reflexivity | right; reflexivity]|].
    left. repeat split.
Qed.

(** A DELETE leaves the table as it was or without the rows of one id. *)
Lemma delete_cases env w param d :
  let o := handle env w (DELETE_message param) d in
  (status (response o) = 500%Z
   /\ (db_after o = d
       \/ (exists msg, fault w 0 = Some msg) /\ applied w 0 = true
          /\ exists k, int4in param = Some k /\ db_after o = without_id k d))
  \/ (fault w 0 = None
      /\ exists k, int4in param = Some k /\ db_after o = without_id k d
         /\ (status (response o) = 404%Z /\ filter (has_id k) (messages d) = []
             \/ status (response o) = 200%Z /\ filter (has_id k) (messages d) <> [])).
Proof.
  run_handler. simpl List.length. unfold exec.
  destruct (fault w 0) as [msg|].
  - left. split; [reflexivity|].
    destruct (applied w 0); [|left; reflexivity].
    destruct (int4in param) as [k|]; [|left; reflexivity].
    right. split; [exists msg; reflexivity|]. split; [reflexivity|].
    exists k. split; reflexivity.
  - destruct (int4in param) as [k|]; [|left; split; [reflexivity | left; reflexivity]].
    right. split; [reflexivity|]. exists k. split; [reflexivity|].
    cbv [rowCount]. destruct (filter (has_id k) (messages d)) eqn:F; simpl.
    + split; [reflexivity|]. left. split; reflexivity.
    + split; [reflexivity|]. right. split; [reflexivity | discriminate].
Qed.

(** ** Errors and the table *)

(** An answer with status 400 or 404 leaves the table as it was, in every
    world.  So does a 500, up to the value that a refused INSERT takes from
    the sequence, unless the infrastructure rejected the statement after the
    server had run it: then the POST has stored its row, and the DELETE has
    removed the rows of its id, although the answer says that the request
    failed. *)
Theorem error_and_the_table env w req d :
  let o := handle env w req d in
  (status (response o) = 400%Z \/ status (response o) = 404%Z -> db_after o = d)
  /\ ((400 <= status (response o))%Z ->
      fault w 0 = None \/ applied w 0 = false ->
      messages (db_after o) = messages d)
  /\ (forall n e m msg,
        trim n <> "" -> trim e <> "" -> trim m <> "" ->
        (String.length n <= 255)%nat -> (String.length e <= 255)%nat ->
        no_nul n = true -> no_nul e = true -> no_nul m = true ->
        has_room d ->
        fault w 0 = Some msg -> applied w 0 = true ->
        let p := handle env w (POST_messages (form (Some n) (Some e) (Some m))) d in
        response p = internal_error "Failed to create message"
        /\ messages (db_after p)
           = messages d ++ [new_row w d (trim n) (trim e) (trim m)])
  /\ (forall param k msg,
        int4in param = Some k ->
        fault w 0 = Some msg -> applied w 0 = true ->
        let x := handle env w (DELETE_message param) d in
        response x = internal_error "Failed to delete message"
        /\ db_after x = without_id k d).
Proof.
  intros o. subst o. split; [|split; [|split]].
  - destruct req as [| | | | |param|req_body|param|url|err];
      try (intros _; apply read_effect; intros; discriminate).
    + destruct (post_cases env w req_body d) as [(_ & E & _)|(n & e & m & Ln & Le & E)];
        [intros _; exact E|].
      rewrite E.
      destruct (after_insert_cases w d (trim n) (trim e) (trim m))
        as [(_ & R & _)|[(S5 & _)|(S5 & _)]];
        try (pose proof (trim_length n); pose proof (trim_length e); lia);
        try rewrite R; try rewrite S5; simpl; intros [H|H]; discriminate H.
    + destruct (delete_cases env w param d)
        as [(S5 & _)|(_ & k & _ & E & [(S4 & F)|(S2 & _)])].
      * rewrite S5. intros [H|H]; discriminate H.
      * intros _. rewrite E. apply (without_absent_id k d F).
      * rewrite S2. intros [H|H]; discriminate H.
  - destruct req as [| | | | |param|req_body|param|url|err];
      try (intros _ _; f_equal; apply read_effect; intros; discriminate).
    + destruct (post_cases env w req_body d) as [(_ & E & _)|(n & e & m & Ln & Le & E)];
        [intros _ _; rewrite E; reflexivity|].
      rewrite E.
      destruct (after_insert_cases w d (trim n) (trim e) (trim m))
        as [(_ & R & _)|[(_ & [D|D])|(_ & (msg & F) & A & _)]];
        try (pose proof (trim_length n); pose proof (trim_length e); lia).
      * rewrite R. simpl. intros H. lia.
      * intros _ _. rewrite D. reflexivity.
      * intros _ _. rewrite D. reflexivity.
      * intros _ [H|H]; congruence.
    + destruct (delete_cases env w param d)
        as [(_ & [D|((msg & F) & A & _)])|(_ & k & _ & E & [(_ & F)|(S2 & _)])].
      * intros _ _. rewrite D. reflexivity.
      * intros _ [H|H]; congruence.
      * intros _ _. rewrite E. rewrite (without_absent_id k d F). reflexivity.
      * rewrite S2. intros H. lia.
  - intros n e m msg Bn Be Bm Ln Le Nn Ne Nm R F A p. subst p.
    destruct (get_form n e m) as (Gn & Ge & Gm).
    assert (P : truthy (JStr n) && truthy (JStr e) && truthy (JStr m) = true).
    { rewrite !trim_nonempty_truthy by assumption. reflexivity. }
    rewrite (post_insert env w d _ _ _ _ Gn Ge Gm P
               (length_gt_string_le n Ln) (length_gt_string_le e Le) n e m
               eq_refl eq_refl eq_refl).
    rewrite F, A.
    rewrite (exec_insert_accepted w d (trim n) (trim e) (trim m))
      by (try apply no_nul_trim; try assumption;
          pose proof (trim_length n); pose proof (trim_length e); lia).
    split; reflexivity.
  - intros param k msg I F A x. subst x.
    run_handler. simpl List.length. rewrite F, A. unfold exec. rewrite I.
    split; reflexivity.
Qed.

(** ** More on trimming *)

Lemma trimEnd_cons (c : ascii) (r : string) :
  trimEnd (String c r)
  = match trimEnd r with
    | EmptyString => if is_white_space c then EmptyString else String c EmptyString
    | String a b => String c (String a b)
    end.
Proof. reflexivity. Qed.

Lemma trimEnd_idempotent (s : string) : trimEnd (trimEnd s) = trimEnd s.
Proof.
  induction s as [|c r IH]; [reflexivity|].
  rewrite (trimEnd_cons c r). destruct (trimEnd r) as [|c' r'] eqn:E.
  - destruct (is_white_space c) eqn:Hc; [reflexivity|].
    rewrite trimEnd_cons. simpl (trimEnd ""). rewrite Hc. reflexivity.
  - rewrite trimEnd_cons. rewrite IH. reflexivity.
Qed.

Lemma trimEnd_keeps_head (c : ascii) (r : string) :
  is_white_space c = false -> trimEnd (String c r) = String c (trimEnd r).
Proof.
  intros H. simpl. destruct (trimEnd r); [rewrite H|]; reflexivity.
Qed.

(** Trimming what is trimmed changes nothing. *)
Lemma trim_idempotent (s : string) : trim (trim s) = trim s.
Proof.
  unfold trim at 2 3.
  destruct (trimStart_head s) as [E|(c & r & E & Hc)]; rewrite E; [reflexivity|].
  rewrite (trimEnd_keeps_head c r Hc). unfold trim. simpl trimStart. rewrite Hc.
  rewrite (trimEnd_keeps_head c _ Hc). rewrite trimEnd_idempotent. reflexivity.
Qed.

(** ** Which 400 *)

(** On a body whose members are strings or absent the three checks are made
    in the order presence, length of [name], length of [email], and the
    first that fails names the answer: an absent or empty member gives
    "All fields ... are required" also when a name is too long, and a name
    that is too long gives "Name must be ..." also when the email is. *)
Theorem post_400_message env w d req_body (n e m : option string) :
  get req_body "name" = Normal (opt_val n) ->
  get req_body "email" = Normal (opt_val e) ->
  get req_body "message" = Normal (opt_val m) ->
  let o := handle env w (POST_messages req_body) d in
  let present := ~ (absent_or_empty n \/ absent_or_empty e \/ absent_or_empty m) in
  (absent_or_empty n \/ absent_or_empty e \/ absent_or_empty m ->
   o = quiet d (validation_failed "All fields (name, email, message) are required"))
  /\ (present -> longer_than 255 n ->
      o = quiet d (validation_failed "Name must be less than 255 characters"))
  /\ (present -> ~ longer_than 255 n -> longer_than 255 e ->
      o = quiet d (validation_failed "Email must be less than 255 characters")).
Proof.
  intros Gn Ge Gm o present. subst o present.
  assert (falsy : absent_or_empty n \/ absent_or_empty e \/ absent_or_empty m ->
                  truthy (opt_val n) && truthy (opt_val e) && truthy (opt_val m) = false).
  { intros [H|[H|H]]; apply truthy_opt_val in H; rewrite H;
      repeat rewrite andb_false_r; reflexivity. }
  assert (all : ~ (absent_or_empty n \/ absent_or_empty e \/ absent_or_empty m) ->
                truthy (opt_val n) && truthy (opt_val e) && truthy (opt_val m) = true).
  { intros H.
    destruct (truthy (opt_val n)) eqn:Tn;
      [|exfalso; apply H; left; apply truthy_opt_val; exact Tn].
    destruct (truthy (opt_val e)) eqn:Te;
      [|exfalso; apply H; right; left; apply truthy_opt_val; exact Te].
    destruct (truthy (opt_val m)) eqn:Tm;
      [reflexivity|exfalso; apply H; right; right; apply truthy_opt_val; exact Tm]. }
  split; [|split].
  - intros H. exact (post_field_missing env w d _ _ _ _ Gn Ge Gm (falsy H)).
  - intros H (s & -> & L).
    apply (post_name_long env w d _ _ _ _ Gn Ge Gm (all H)).
    simpl opt_val. rewrite length_gt_string. f_equal.
    apply Nat.ltb_lt. exact L.
  - intros H Hn (s & -> & L).
    assert (Ln : length_gt (opt_val n) 255 = Normal false).
    { destruct n as [sn|]; simpl opt_val;
        [|exfalso; apply H; left; left; reflexivity].
      rewrite length_gt_string. f_equal. apply Nat.ltb_ge.
      destruct (Nat.le_gt_cases (String.length sn) 255) as [K|K]; [exact K|].
      exfalso. apply Hn. exists sn. split; [reflexivity | exact K]. }
    apply (post_email_long env w d _ _ _ _ Gn Ge Gm (all H) Ln).
    simpl opt_val. rewrite length_gt_string. f_equal.
    apply Nat.ltb_lt. exact L.
Qed.


(** ** What is ever stored *)

(** What a POST does to the table, with the strings it stores. *)
Lemma post_stores env w req_body d :
  db_after (handle env w (POST_messages req_body) d) = d
  \/ db_after (handle env w (POST_messages req_body) d) = skipped d
  \/ exists n e m,
       (String.length n <= 255)%nat /\ (String.length e <= 255)%nat
       /\ db_after (handle env w (POST_messages req_body) d)
          = with_row d (new_row w d (trim n) (trim e) (trim m)).
Proof.
  destruct (post_cases env w req_body d) as [(_ & E & _)|(n & e & m & Ln & Le & E)];
    [left; exact E|].
  rewrite E.
  destruct (after_insert_cases w d (trim n) (trim e) (trim m))
    as [(_ & _ & D)|[(_ & [D|D])|(_ & _ & _ & D)]];
    try (pose proof (trim_length n); pose proof (trim_length e); lia);
    rewrite D; auto; right; right; exists n, e, m; auto.
Qed.

Lemma handle_keeps_table_ok env w req d :
  table_ok d -> table_ok (db_after (handle env w req d)).
Proof.
  intros [Hs Hr]. destruct req as [| | | | |param|req_body|param|url|err];
    try (rewrite not_a_write by reflexivity; split; assumption).
  - destruct (post_stores env w req_body d) as [E|[E|(n & e & m & Ln & Le & E)]];
      rewrite E.
    + split; assumption.
    + split; [simpl; lia | exact Hr].
    + split; [simpl; lia|]. simpl. apply Forall_app. split; [exact Hr|].
      constructor; [|constructor].
      unfold row_ok, new_row. simpl.
      rewrite !trim_idempotent.
      pose proof (trim_length n). pose proof (trim_length e).
      repeat split; try reflexivity; lia.
  - destruct (delete_cases env w param d)
      as [(_ & [E|(_ & _ & k & _ & E)])|(_ & k & _ & E & _)]; rewrite E.
    + split; assumption.
    + split; [exact Hs|]. simpl. apply Forall_filter. exact Hr.
    + split; [exact Hs|]. simpl. apply Forall_filter. exact Hr.
Qed.

Lemma run_keeps (I : Db -> Prop) env :
  (forall w req d, I d -> I (db_after (handle env w req d))) ->
  forall steps d, I d -> I (final_db d (run env steps d)).
Proof.
  intros step steps. induction steps as [|[w req] rest IH]; intros d H.
  - exact H.
  - simpl run. rewrite final_db_cons. apply IH. apply step. exact H.
Qed.

(** Whatever requests are served, in whatever worlds, every row in the
    table keeps the form the POST handler gives it: [name], [email] and
    [message] are trimmed, [name] and [email] have at most 255 characters,
    [created_at] equals [updated_at], and [id] is positive. *)
Theorem stored_rows_stay_ok env steps d :
  table_ok d -> table_ok (final_db d (run env steps d)).
Proof.
  apply (run_keeps table_ok). intros w req d'. apply handle_keeps_table_ok.
Qed.

(** ** Round trips *)




(** ** Deleting twice, and in either order *)

Lemma without_id_twice k d : without_id k (without_id k d) = without_id k d.
Proof.
  unfold without_id. simpl. f_equal.
  induction (messages d) as [|x r IH]; simpl; [reflexivity|].
  destruct (negb (has_id k x)) eqn:E; simpl; [rewrite E, IH|]; auto.
Qed.

Lemma without_id_swap j k d :
  without_id j (without_id k d) = without_id k (without_id j d).
Proof.
  unfold without_id. simpl. f_equal.
  induction (messages d) as [|x r IH]; simpl; [reflexivity|].
  destruct (negb (has_id k x)) eqn:Ek; destruct (negb (has_id j x)) eqn:Ej; simpl;
    rewrite ?Ek, ?Ej, IH; reflexivity.
Qed.

(** A second DELETE of the same id leaves the table that the first one
    left, and two DELETEs of any two ids leave the same table in either
    order. *)
Theorem delete_twice_and_in_either_order env w1 w2 d p q j k :
  int4in p = Some j -> int4in q = Some k ->
  fault w1 0 = None -> fault w2 0 = None ->
  db_after (handle env w2 (DELETE_message p)
              (db_after (handle env w1 (DELETE_message p) d)))
  = db_after (handle env w1 (DELETE_message p) d)
  /\ db_after (handle env w2 (DELETE_message q)
                 (db_after (handle env w1 (DELETE_message p) d)))
     = db_after (handle env w2 (DELETE_message p)
                   (db_after (handle env w1 (DELETE_message q) d))).
Proof.
  intros Ip Iq F1 F2.
  rewrite (delete_message_outcome env w1 d p j Ip F1).
  rewrite (delete_message_outcome env w1 d q k Iq F1).
  cbv [db_after quiet_after].
  rewrite (delete_message_outcome env w2 _ p j Ip F2).
  rewrite (delete_message_outcome env w2 _ q k Iq F2).
  rewrite (delete_message_outcome env w2 _ p j Ip F2).
  cbv [db_after quiet_after]. split; [apply without_id_twice | apply without_id_swap].
Qed.

(** ** The report of /api/test-db *)

Lemma split_space_word (a rest : string) :
  no_space a = true ->
  split_space (a ++ String " " rest)%string = a :: split_space rest.
Proof.
  induction a as [|c a IH]; simpl; intros H; [reflexivity|].
  apply andb_prop in H as [Hc Ha]. apply negb_true_iff in Hc. rewrite Hc.
  rewrite (IH Ha). reflexivity.
Qed.

Lemma split_space_last (a : string) : no_space a = true -> split_space a = [a].
Proof.
  induction a as [|c a IH]; simpl; intros H; [reflexivity|].
  apply andb_prop in H as [Hc Ha]. apply negb_true_iff in Hc. rewrite Hc.
  rewrite (IH Ha). reflexivity.
Qed.

(** The [version] that /api/test-db reports is the second word of the text
    of [version()]: what stands between its first space and the next space
    or the end; a text without a space has no second word, and no [version]
    is reported. *)
Theorem version_is_second_word (t : JsVal) (a b rest : string) :
  no_space a = true -> no_space b = true ->
  version_number (version_row t (a ++ " " ++ b)%string) = JStr b
  /\ version_number (version_row t (a ++ " " ++ b ++ " " ++ rest)%string) = JStr b
  /\ version_number (version_row t a) = JUndefined
  /\ keys (js_object [("connected", JBool true); ("time", t);
                      ("version", version_number (version_row t a))])
     = if is_undefined t then ["connected"] else ["connected"; "time"].
Proof.
  intros Ha Hb. unfold version_number, version_row. simpl field.
  split; [|split; [|split]].
  - change (a ++ " " ++ b)%string with (a ++ String " " b)%string.
    rewrite (split_space_word a b Ha), (split_space_last b Hb). reflexivity.
  - change (a ++ " " ++ b ++ " " ++ rest)%string
      with (a ++ String " " (b ++ String " " rest))%string.
    rewrite (split_space_word a _ Ha), (split_space_word b _ Hb). reflexivity.
  - rewrite (split_space_last a Ha). reflexivity.
  - rewrite (split_space_last a Ha). simpl. destruct t; reflexivity.
Qed.

(** /api/test-db answers 200 exactly when neither of its two statements is
    rejected; it then reports the number of rows in the table; otherwise it
    answers 500 "Database connection failed"; it never changes the table. *)
Theorem test_db_report env w d :
  let o := handle env w GET_test_db d in
  (status (response o) = 200%Z <-> fault w 0 = None /\ fault w 1 = None)
  /\ (status (response o) = 200%Z ->
      field "count" (field "messages" (body (response o)))
      = JNum (inject_Z (Z.of_nat (List.length (messages d))))
      /\ field "connected" (field "database" (body (response o))) = JBool true
      /\ queries o = [SelectNowVersion; SelectCountMessages])
  /\ (status (response o) <> 200%Z ->
      status (response o) = 500%Z
      /\ field "error" (body (response o)) = JStr "Database connection failed")
  /\ db_after o = d.
Proof.
  intros o. subst o. run_handler. simpl List.length.
  destruct (fault w 0) as [m0|].
  - simpl. repeat split; try discriminate; try tauto;
      try (intros [H _]; discriminate H).
    destruct (applied w 0); reflexivity.
  - simpl exec. cbv iota beta. simpl List.length.
    destruct (fault w 1) as [m1|].
    + simpl. repeat split; try discriminate; try tauto;
        try (intros [_ H]; discriminate H).
      destruct (applied w 1); reflexivity.
    + simpl. repeat split; try tauto; congruence.
Qed.

(** ** Start-up *)

Lemma add_columns_current (now : Z) (t : Table) :
  has_created_at t = true -> has_updated_at t = true -> add_columns now t = content t.
Proof.
  intros Hc Hu. unfold add_columns. rewrite Hc, Hu.
  destruct (content t) as [rows next]. simpl. f_equal.
  induction rows as [|m rows IH]; simpl; [reflexivity|].
  rewrite IH. destruct m; reflexivity.
Qed.

(** [initDb], statement by statement. *)
Lemma initDb_cases w c :
  initDb w c
  = match fault w 0 with
    | Some _ => Exited 1 (firstn 1 boot_statements)
    | None =>
        match fault w 1 with
        | Some _ => Exited 1 (firstn 2 boot_statements)
        | None =>
            let t := match c with
                     | Some t => t
                     | None => {| has_created_at := true; has_updated_at := true;
                                  has_index := false; content := empty_db |}
                     end in
            match fault w 2 with
            | Some _ => Exited 1 (firstn 3 boot_statements)
            | None =>
                if has_index t || has_created_at t then
                  match fault w 3 with
                  | Some _ => Exited 1 boot_statements
                  | None =>
                      Alive (Some {| has_created_at := true; has_updated_at := true;
                                     has_index := true;
                                     content := add_columns (CURRENT_TIMESTAMP w) t |})
                        boot_statements
                  end
                else Exited 1 (firstn 3 boot_statements)
            end
        end
    end.
Proof.
  cbv [initDb and_then boot_query catalog sent]. simpl List.length.
  destruct (fault w 0); [reflexivity|].
  simpl exec_ddl. cbv iota beta. simpl List.length.
  destruct (fault w 1); [reflexivity|].
  destruct c as [t|]; simpl exec_ddl; cbv iota beta zeta; simpl List.length;
    (destruct (fault w 2); [reflexivity|]).
  - destruct (has_index t) eqn:Hi; simpl.
    + destruct (fault w 3); [reflexivity|]. simpl. rewrite Hi. reflexivity.
    + destruct (has_created_at t) eqn:Hc; simpl; [|reflexivity].
      destruct (fault w 3); [reflexivity|]. simpl.
      unfold add_columns. simpl. rewrite Hc. reflexivity.
  - simpl. destruct (fault w 3); reflexivity.
Qed.

Lemma initDb_alive w c c' sts :
  initDb w c = Alive c' sts ->
  boots w /\ sts = boot_statements
  /\ exists t, c' = Some t /\ has_created_at t = true /\ has_updated_at t = true
               /\ has_index t = true.
Proof.
  rewrite initDb_cases. unfold boots.
  destruct (fault w 0); [discriminate|].
  destruct (fault w 1); [discriminate|]. cbv zeta.
  destruct (fault w 2); [discriminate|].
  match goal with |- context [if ?b then _ else _] => destruct b end; [|discriminate].
  destruct (fault w 3); [discriminate|].
  intros H. injection H as <- <-. repeat split. eexists. repeat split.
Qed.

(** When no statement of start-up is rejected: on a database without the
    table, [initDb] makes the empty table; on the table with both timestamp
    columns it keeps every row and the sequence; and a second start-up
    after a start-up that went through changes nothing. *)
Theorem initDb_keeps_the_table w :
  boots w ->
  initDb w None = Alive (Some (current empty_db)) boot_statements
  /\ (forall indexed d,
        initDb w (Some {| has_created_at := true; has_updated_at := true;
                          has_index := indexed; content := d |})
        = Alive (Some (current d)) boot_statements)
  /\ (forall w0 c c' sts,
        initDb w0 c = Alive c' sts -> initDb w c' = Alive c' boot_statements).
Proof.
  intros (F0 & F1 & F2 & F3).
  assert (kept : forall indexed d,
            initDb w (Some {| has_created_at := true; has_updated_at := true;
                              has_index := indexed; content := d |})
            = Alive (Some (current d)) boot_statements).
  { intros indexed d. rewrite initDb_cases, F0, F1, F2, F3. cbv zeta. simpl.
    rewrite orb_true_r. rewrite add_columns_current by reflexivity. reflexivity. }
  split; [|split].
  - rewrite initDb_cases, F0, F1, F2, F3. reflexivity.
  - exact kept.
  - intros w0 c c' sts H.
    apply initDb_alive in H as (_ & _ & t & -> & Hc & Hu & Hi).
    destruct t as [tc tu ti d]. simpl in Hc, Hu, Hi. subst. apply kept.
Qed.

(** Start-up ends in [process.exit(1)] as soon as a statement is rejected:
    the statements after it are not sent, and the server does not listen.
    The server listens only after all four statements went through. *)
Theorem initDb_exits_on_rejection env_port w c :
  (~ boots w -> exists sts, initDb w c = Exited 1 sts)
  /\ (forall code sts,
        initDb w c = Exited code sts ->
        code = 1%Z
        /\ (exists k, (k < 4)%nat /\ sts = firstn (S k) boot_statements)
        /\ startServer env_port w c = Stopped 1)
  /\ (forall port c', startServer env_port w c = Listening port c' ->
        boots w /\ port = PORT env_port /\ exists sts, initDb w c = Alive c' sts).
Proof.
  split; [|split].
  - intros H. destruct (initDb w c) as [code sts|c' sts] eqn:E.
    + revert E. rewrite initDb_cases.
      destruct (fault w 0); [intros E; injection E as <- <-; eexists; reflexivity|].
      destruct (fault w 1); [intros E; injection E as <- <-; eexists; reflexivity|].
      cbv zeta.
      destruct (fault w 2); [intros E; injection E as <- <-; eexists; reflexivity|].
      match goal with |- context [if ?b then _ else _] => destruct b end;
        [|intros E; injection E as <- <-; eexists; reflexivity].
      destruct (fault w 3); intros E; [|discriminate E].
      injection E as <- <-. eexists; reflexivity.
    + exfalso. apply H. apply (initDb_alive _ _ _ _ E).
  - intros code sts E. unfold startServer. rewrite E.
    revert E. rewrite initDb_cases.
    destruct (fault w 0);
      [intros E; injection E as <- <-; repeat split; exists 0%nat; split; [lia|reflexivity]|].
    destruct (fault w 1);
      [intros E; injection E as <- <-; repeat split; exists 1%nat; split; [lia|reflexivity]|].
    cbv zeta.
    destruct (fault w 2);
      [intros E; injection E as <- <-; repeat split; exists 2%nat; split; [lia|reflexivity]|].
    match goal with |- context [if ?b then _ else _] => destruct b end;
      [|intros E; injection E as <- <-; repeat split; exists 2%nat; split; [lia|reflexivity]].
    destruct (fault w 3); intros E; [|discriminate E].
    injection E as <- <-. repeat split. exists 3%nat. split; [lia|reflexivity].
  - intros port c'. unfold startServer.
    destruct (initDb w c) as [code sts|c1 sts] eqn:E; [discriminate|].
    intros H. injection H as <- <-.
    split; [apply (initDb_alive _ _ _ _ E)|]. split; [reflexivity|].
    exists sts. reflexivity.
Qed.

(** On a table of an older schema: without the column [created_at] (and so
    without the index on it) start-up always ends in [process.exit(1)], at
    the CREATE INDEX or before it, and the ALTER TABLE that would add the
    column is never sent; with [created_at] but without [updated_at], and
    no statement rejected, start-up goes through, every row keeps its id,
    name, email, message and [created_at], and gets the instant of the
    ALTER TABLE as [updated_at]. *)
Theorem initDb_older_schema w d :
  (forall with_updated_at,
     exists sts,
       initDb w (Some {| has_created_at := false; has_updated_at := with_updated_at;
                         has_index := false; content := d |}) = Exited 1 sts
       /\ ~ In AddTimestampColumns sts)
  /\ (boots w ->
      forall indexed,
        exists d',
          initDb w (Some {| has_created_at := true; has_updated_at := false;
                            has_index := indexed; content := d |})
          = Alive (Some (current d')) boot_statements
          /\ map id (messages d') = map id (messages d)
          /\ map name (messages d') = map name (messages d)
          /\ map email (messages d') = map email (messages d)
          /\ map message (messages d') = map message (messages d)
          /\ map created_at (messages d') = map created_at (messages d)
          /\ Forall (fun m => updated_at m = CURRENT_TIMESTAMP w) (messages d')
          /\ messages_id_seq d' = messages_id_seq d).
Proof.
  clear StringToNumber ObjectToNumber toISOString int4in.
  split.
  - intros u. rewrite initDb_cases. cbv zeta. simpl.
    destruct (fault w 0);
      [eexists; split; [reflexivity | simpl; intuition discriminate]|].
    destruct (fault w 1);
      [eexists; split; [reflexivity | simpl; intuition discriminate]|].
    destruct (fault w 2);
      eexists; (split; [reflexivity | simpl; intuition discriminate]).
  - intros (F0 & F1 & F2 & F3) indexed.
    exists (add_columns (CURRENT_TIMESTAMP w)
              {| has_created_at := true; has_updated_at := false;
                 has_index := indexed; content := d |}).
    split.
    + rewrite initDb_cases, F0, F1, F2, F3. cbv zeta. simpl.
      rewrite orb_true_r. reflexivity.
    + unfold add_columns. simpl. rewrite !map_map. simpl.
      repeat split; try (apply map_ext; intros; reflexivity).
      apply Forall_forall. intros m Hm. apply in_map_iff in Hm as (x & <- & _).
      reflexivity.
Qed.

(** ** The list page *)

(** When [fetchMessages] is done the page is neither loading nor refreshing,
    whatever came back; the list is replaced only by the [data] of a
    response with a status in 200..299 and a JSON body (by the empty list
    when that [data] is falsy); after anything else the list that was shown
    stays. *)
Theorem fetchMessages_settles isRefreshing net p :
  let p' := fetchMessages isRefreshing net p in
  page_loading p' = false /\ refreshing p' = false
  /\ deletingIds p' = deletingIds p
  /\ (net = NetworkError -> page_messages p' = page_messages p)
  /\ (forall code json, net = Answered code json ->
        response_ok code = false \/ json = None ->
        page_messages p' = page_messages p)
  /\ (forall code data v, net = Answered code (Some data) ->
        response_ok code = true -> get data "data" = Normal v ->
        page_messages p' = if truthy v then v else JArr []).
Proof.
  unfold fetchMessages. simpl.
  split; [reflexivity|]. split; [reflexivity|].
  split; [destruct isRefreshing; reflexivity|].
  split; [|split].
  - intros ->. destruct isRefreshing; reflexivity.
  - intros code json -> [H| ->].
    + destruct json; rewrite ?H; destruct isRefreshing; reflexivity.
    + destruct isRefreshing; reflexivity.
  - intros code data v -> H G. rewrite H, G. reflexivity.
Qed.

(** After [fetchMessages] against the server the page shows the table,
    newest first and rows of one instant in the order the database lists
    them, when the SELECT went through; when it was rejected (the server
    answers 500) the page keeps the list it had. *)
Theorem refresh_shows_the_table env w d isRefreshing p :
  let o := handle env w GET_messages d in
  let p' := fetchMessages isRefreshing (over_the_wire (response o)) p in
  (fault w 0 = None ->
   shows p' d
   /\ page_messages p'
      = JArr (map row_json (order_by_created_at_desc (listed_first w) (messages d))))
  /\ (fault w 0 <> None -> page_messages p' = page_messages p)
  /\ page_loading p' = false /\ refreshing p' = false.
Proof.
  intros o p'. subst o p'. unfold shows. run_handler. simpl List.length.
  destruct (fault w 0) as [msg|].
  - split; [discriminate|]. split; [|split; reflexivity].
    intros _. unfold fetchMessages, over_the_wire. simpl.
    destruct isRefreshing; reflexivity.
  - split; [|split; [congruence | split; reflexivity]].
    intros _. split; [|reflexivity].
    exists (order_by_created_at_desc (listed_first w) (messages d)).
    split; [reflexivity|]. split; [apply order_by_perm | apply order_by_sorted].
Qed.






(** A click on Delete that is not confirmed changes nothing; a confirmed
    one leaves [deletingIds] without the id of the card, whatever came back;
    it alerts exactly when the response is not one with a status in
    200..299, and then the list is as it was. *)
Theorem delete_click_settles i net p id :
  card_id i p = Some id ->
  delete_click i false net p = Some (p, None)
  /\ (forall p' alerted,
        delete_click i true net p = Some (p', alerted) ->
        forallb (fun x => negb (strict_equal x id)) (deletingIds p') = true
        /\ page_loading p' = page_loading p /\ refreshing p' = refreshing p
        /\ (alerted = None <-> exists code json, net = Answered code json
                                                 /\ response_ok code = true)
        /\ (alerted <> None ->
            alerted = Some "Failed to delete message"
            /\ page_messages p' = page_messages p)).
Proof.
  clear StringToNumber ObjectToNumber toISOString int4in.
  intros C. unfold delete_click. rewrite C. simpl negb. cbv iota.
  split; [reflexivity|].
  intros p' alerted.
  assert (settled : forall l,
            forallb (fun x => negb (strict_equal x id))
              (filter (fun x => negb (strict_equal x id)) l) = true).
  { intros l. apply forallb_forall. intros x Hx. apply filter_In in Hx. tauto. }
  destruct net as [|code json].
  - intros H. injection H as <- <-. simpl.
    split; [apply settled|]. split; [reflexivity|]. split; [reflexivity|].
    split; [split; [discriminate | intros (c & j & E & _); discriminate]|].
    intros _. split; reflexivity.
  - destruct (response_ok code) eqn:Ok.
    + destruct (page_messages p) as [| | | | |prev|] eqn:P; try discriminate.
      destruct (without_card id prev) as [kept|]; [|discriminate].
      intros H. injection H as <- <-. simpl.
      split; [apply settled|]. split; [reflexivity|]. split; [reflexivity|].
      split; [split; [intros _; exists code, json; split; [reflexivity | exact Ok]
                     | reflexivity]|].
      intros H. exfalso. apply H. reflexivity.
    + intros H. injection H as <- <-. simpl.
      split; [apply settled|]. split; [reflexivity|]. split; [reflexivity|].
      split; [split; [discriminate|]|].
      * intros (c & j & E & Ok'). injection E as -> _. congruence.
      * intros _. split; reflexivity.
Qed.


(** ** The form page *)

(** When [handleSubmit] is done the page is not loading, whatever came
    back; after the success toast the three fields are empty, after an
    error toast they are as the visitor left them. *)
Theorem handleSubmit_settles ax f :
  let r := handleSubmit ax f in
  form_loading (fst r) = false
  /\ match snd r with
     | ToastSuccess _ =>
         form_name (fst r) = "" /\ form_email (fst r) = "" /\ form_message (fst r) = ""
     | ToastError _ =>
         form_name (fst r) = form_name f /\ form_email (fst r) = form_email f
         /\ form_message (fst r) = form_message f
     end.
Proof.
  unfold handleSubmit. destruct ax as [|data]; [repeat split|].
  destruct (get data "success") as [success|]; [|repeat split].
  destruct (truthy success); repeat split.
Qed.


(** ** The status a handler sets and the [success] flag *)

(** What the handlers of the file pass to [res.status(...).json(...)]: the
    status is one of five codes; every handler but those of /api/health and
    / puts a [success] member in the body, and it is [true] exactly when the
    status is below 400; the bodies of /api/health and / have none, and
    their status is 200 in every world. *)
Theorem success_flag_agrees_with_status env w req d :
  let r := response (handle env w req d) in
  In (status r) [200; 201; 400; 404; 500]%Z
  /\ (req <> GET_health -> req <> GET_root ->
      field "success" (body r) = JBool (status r <? 400)%Z)
  /\ (req = GET_health \/ req = GET_root ->
      status r = 200%Z /\ field "success" (body r) = JUndefined
      /\ queries (handle env w req d) = []).
Proof.
  destruct req; run_handler; split_cases; simpl;
    (split; [tauto|]);
    (split; [intros; try reflexivity; congruence|]);
    intros [H|H]; try discriminate H; repeat split.
Qed.

End Server.

(** ** The statements at sample requests

    Each statement below holds for every reading of the platform's
    functions; where the parameter of a route is read, PostgreSQL's
    decimal integers are taken. *)

(** C1 does not hold as it is written for a name of white space only: the
    request is answered with 201 and the empty string is stored. *)
Lemma blank_name_is_stored :
  trim "   " = ""
  /\ forall S O T I env,
       status (response (handle S O T I env calm (POST_messages blank_name) empty_db)) = 201%Z
       /\ map name (messages (db_after (handle S O T I env calm (POST_messages blank_name)
                                          empty_db))) = [""].
Proof. split; [reflexivity | intros; split; reflexivity]. Qed.

(** C1 at the body with an empty name, and at the body [ada]. *)
Lemma post_400_iff_witness :
  get empty_name "name" = Normal (JStr "")
  /\ forall S O T I,
       status (response (handle S O T I production calm (POST_messages empty_name) one_row))
       = 400%Z
       /\ status (response (handle S O T I production calm (POST_messages ada) one_row))
          <> 400%Z.
Proof.
  split; [reflexivity|]. intros S O T I. split.
  - apply (proj2 (post_400_iff S O T I production calm one_row empty_name
                    (Some "") (Some "a@b.com") (Some "hi") eq_refl eq_refl eq_refl)).
    left. right. reflexivity.
  - intros H.
    apply (proj1 (post_400_iff S O T I production calm one_row ada
                    (Some "  Ada ") (Some "ada@example.com") (Some "hello")
                    eq_refl eq_refl eq_refl)) in H.
    unfold absent_or_empty, longer_than in H.
    destruct H as [[H|H]|[[H|H]|[[H|H]|[(s & E & H)|(s & E & H)]]]];
      try discriminate; injection E as <-; simpl in H; lia.
Defined.

(** C2 does not hold as it is written.  A name of 253 spaces before three
    letters has three characters after trimming, and is answered with 400:
    the length is taken before trimming.  A name with the character of code
    0 in it is valid as C2 has it, and is answered with 500, as is any post
    on a table whose sequence has given its last value, or in which a row
    already has the next value of the sequence as [id]. *)
Lemma valid_post_not_created :
  (trim padded_name = "Ada" /\ trim nul_name = nul_name
   /\ String.length nul_name = 3%nat)
  /\ (forall S O T I env,
        response (handle S O T I env calm (POST_messages padded) empty_db)
        = validation_failed "Name must be less than 255 characters")
  /\ (forall S O T I env,
        response (handle S O T I env calm (POST_messages with_nul) empty_db)
        = internal_error "Failed to create message"
        /\ db_after (handle S O T I env calm (POST_messages with_nul) empty_db)
           = empty_db)
  /\ (forall S O T I env,
        response (handle S O T I env calm (POST_messages ada) exhausted)
        = internal_error "Failed to create message"
        /\ db_after (handle S O T I env calm (POST_messages ada) exhausted) = exhausted)
  /\ (forall S O T I env,
        response (handle S O T I env calm (POST_messages ada) behind)
        = internal_error "Failed to create message"
        /\ db_after (handle S O T I env calm (POST_messages ada) behind)
           = {| messages := [ada_row; bob_row]; messages_id_seq := 3 |}).
Proof.
  split; [repeat split|].
  split; [intros; reflexivity|].
  split; [intros; split; reflexivity|].
  split; intros; split; reflexivity.
Qed.

(** C2 at the body [ada] on the empty table. *)
Lemma post_valid_created_witness :
  (trim "  Ada " = "Ada" /\ (String.length "ada@example.com" <= 255)%nat
   /\ no_nul "  Ada " = true
   /\ fault calm 0 = None /\ has_room empty_db /\ db_wf empty_db)
  /\ forall S O T I,
       new_id (handle S O T I production calm (POST_messages ada) empty_db) = Some 1%Z
       /\ StronglySorted Z.lt
            (new_ids (run S O T I production
                        [(calm, POST_messages ada); (calm, POST_messages bob)] empty_db)).
Proof.
  assert (wf : db_wf empty_db) by (split; constructor).
  assert (room : has_room empty_db).
  { split; [unfold int4_max; simpl; lia | simpl; tauto]. }
  split.
  - repeat split; try reflexivity; try (simpl; lia); try apply room; constructor.
  - intros S O T I. split.
    + destruct (proj1 (post_valid_created S O T I) production calm empty_db ada
                  "  Ada " "ada@example.com" "hello" eq_refl eq_refl eq_refl
                  ltac:(discriminate) ltac:(discriminate) ltac:(discriminate)
                  ltac:(simpl; lia) ltac:(simpl; lia) eq_refl eq_refl eq_refl
                  eq_refl room)
        as (_ & _ & _ & _ & H & _).
      exact H.
    + exact (proj1 (proj2 (post_valid_created S O T I) production
                      [(calm, POST_messages ada); (calm, POST_messages bob)] empty_db wf)).
Defined.

(** C3 does not hold as it is written for two rows of the same instant:
    both are listed, their [created_at] are equal, and which comes first is
    the database's choice: in heap order in one world, last stored first in
    another. *)
Lemma same_instant_rows_listed :
  created_at bob_row = created_at ada_row
  /\ (forall S O T I env,
        map (fun o => field "data" (body (response o)))
          (run S O T I env
             [(calm, POST_messages ada); (calm, POST_messages bob); (calm, GET_messages)]
             empty_db)
        = [row_json T ada_row; row_json T bob_row;
           JArr [row_json T ada_row; row_json T bob_row]])
  /\ (forall S O T I env,
        field "data"
          (body (response (handle S O T I env calm_last_first GET_messages
                             {| messages := [ada_row; bob_row]; messages_id_seq := 3 |})))
        = JArr [row_json T bob_row; row_json T ada_row]).
Proof. split; [reflexivity|]. split; intros; reflexivity. Qed.

(** C3 at the table of one row, and after two posts an instant apart. *)
Lemma get_messages_newest_first_witness :
  (fault calm 0 = None /\ instant (calm, ("  Ada ", "ada@example.com", "hello")) = 1700000000%Z)
  /\ forall S O T I,
       field "data" (body (response (handle S O T I production calm GET_messages one_row)))
       = JArr [row_json T ada_row]
       /\ field "data"
            (body (response
                     (handle S O T I production calm GET_messages
                        (final_db empty_db
                           (run S O T I production
                              (map post_of [(calm, ("  Ada ", "ada@example.com", "hello"));
                                            (later, ("Bob", "bob@example.com",
                                                     "good morning"))])
                              empty_db)))))
          = JArr [row_json T later_bob_row; row_json T ada_row].
Proof.
  split; [split; reflexivity|]. intros S O T I. split.
  - destruct (proj1 (get_messages_newest_first S O T I) production calm one_row eq_refl)
      as (H & _).
    rewrite H. reflexivity.
  - refine (proj2 (proj2 (get_messages_newest_first S O T I) production
                     [(calm, ("  Ada ", "ada@example.com", "hello"));
                      (later, ("Bob", "bob@example.com", "good morning"))]
                     calm _ _ _ eq_refl)).
    + repeat constructor; simpl; try discriminate; lia.
    + unfold int4_max. simpl. lia.
    + repeat constructor.
Defined.

(** C4 does not hold as it is written for the parameter [abc]: no row has
    that id, and the answer is 500. *)
Lemma get_abc_is_500 :
  int4in_decimal "abc" = None
  /\ forall S O T env w,
       status (response (handle S O T int4in_decimal env w (GET_message "abc") one_row))
       = 500%Z.
Proof.
  split; [reflexivity|]. intros.
  unfold handle, route, get_message, delete_message, try_catch, bind, pool_query. simpl.
  destruct (fault w 0); reflexivity.
Qed.

(** C4 at the parameters [1] and [7] on the table of one row. *)
Lemma get_message_by_id_witness :
  (int4in_decimal "1" = Some 1%Z /\ fault calm 0 = None /\ db_wf one_row)
  /\ forall S O T,
       response (handle S O T int4in_decimal production calm (GET_message "1") one_row)
       = {| status := 200;
            body := JObj [("success", JBool true); ("data", row_json T ada_row)] |}.
Proof.
  assert (wf : db_wf one_row).
  { split; simpl; repeat constructor; simpl; tauto. }
  split; [repeat split; try reflexivity; apply wf|].
  intros S O T.
  destruct (get_message_by_id S O T int4in_decimal production calm one_row "1" 1
              eq_refl eq_refl wf) as (H & _).
  apply H; [left; reflexivity | reflexivity].
Defined.

(** C5 does not hold as it is written for the parameter [abc]: no row has
    that id, and the answer is 500, an error. *)
Lemma delete_abc_is_500 :
  int4in_decimal "abc" = None
  /\ forall S O T env w,
       status (response (handle S O T int4in_decimal env w (DELETE_message "abc") one_row))
       = 500%Z.
Proof.
  split; [reflexivity|]. intros.
  unfold handle, route, get_message, delete_message, try_catch, bind, pool_query. simpl.
  destruct (fault w 0); reflexivity.
Qed.

(** C5 at the parameter [1] on the table of one row. *)
Lemma delete_message_by_id_witness :
  (int4in_decimal "1" = Some 1%Z /\ fault calm 0 = None /\ db_wf one_row)
  /\ forall S O T,
       status (response (handle S O T int4in_decimal production calm
                           (DELETE_message "1") one_row)) = 200%Z
       /\ messages (db_after (handle S O T int4in_decimal production calm
                                (DELETE_message "1") one_row)) = [].
Proof.
  assert (wf : db_wf one_row).
  { split; simpl; repeat constructor; simpl; tauto. }
  split; [repeat split; try reflexivity; apply wf|].
  intros S O T.
  destruct (delete_message_by_id S O T int4in_decimal production calm one_row "1" 1
              eq_refl eq_refl wf) as (H & _ & K & _).
  split; [|exact K].
  rewrite H; [reflexivity|]. exists ada_row. split; [left; reflexivity | reflexivity].
Defined.

(** C6 at the body with an empty name. *)
Lemma post_400_no_query_witness :
  truthy (JStr "") = false
  /\ forall S O T I,
       status (response (handle S O T I production calm (POST_messages empty_name) one_row))
       = 400%Z
       /\ queries (handle S O T I production calm (POST_messages empty_name) one_row) = []
       /\ db_after (handle S O T I production calm (POST_messages empty_name) one_row)
          = one_row.
Proof.
  split; [reflexivity|]. intros S O T I. split; [reflexivity|].
  apply (post_400_no_query S O T I production calm empty_name one_row). reflexivity.
Defined.

(** C7 does not hold as it is written: in development the error body of
    GET /api/messages has a fourth member, and the error body of
    /api/check-tables has no [message]. *)
Lemma error_bodies_of_other_shapes :
  is_development development = true
  /\ (forall S O T I,
        keys (body (response (handle S O T I development (broken "connection refused")
                                GET_messages empty_db)))
        = ["success"; "error"; "message"; "details"])
  /\ (forall S O T I env,
        body (response (handle S O T I env (broken "connection refused")
                          GET_check_tables empty_db))
        = JObj [("success", JBool false); ("error", JStr "connection refused")]).
Proof. split; [reflexivity|]. split; intros; reflexivity. Qed.

(** C7 at a route that is not registered. *)
Lemma error_response_members_witness :
  Unmatched "/api/nope" <> GET_check_tables
  /\ forall S O T I,
       (400 <= status (response (handle S O T I production calm (Unmatched "/api/nope")
                                   empty_db)))%Z
       /\ error_members (body (response (handle S O T I production calm
                                           (Unmatched "/api/nope") empty_db)))
       /\ field "message" (body (response (handle S O T I production calm
                                             (Unmatched "/api/nope") empty_db)))
          = JStr "Route /api/nope not found".
Proof.
  split; [discriminate|]. intros S O T I.
  split; [simpl; lia|]. split; [|reflexivity].
  apply (error_response_members S O T I production calm (Unmatched "/api/nope") empty_db);
    [discriminate | simpl; lia].
Defined.

(** C8 does not hold as it is written: a rejected INSERT in development is
    answered without the underlying message, and a rejected statement of
    /api/test-db in production is answered with it. *)
Lemma storage_failure_detail_by_route :
  (is_development development = true /\ is_development production = false)
  /\ (forall S O T I,
        body (response (handle S O T I development (broken "connection refused")
                          (POST_messages ada) empty_db))
        = JObj [("success", JBool false);
                ("error", JStr "Internal server error");
                ("message", JStr "Failed to create message")])
  /\ (forall S O T I,
        body (response (handle S O T I production (broken "connection refused")
                          GET_test_db empty_db))
        = JObj [("success", JBool false);
                ("error", JStr "Database connection failed");
                ("message", JStr "connection refused")]).
Proof. split; [split; reflexivity|]. split; intros; reflexivity. Qed.

(** C8 at GET /api/messages in a broken world, in both environments. *)
Lemma storage_failure_response_witness :
  fault (broken "connection refused") 0 = Some "connection refused"
  /\ forall S O T I,
       field "details" (body (response (handle S O T I development
                                          (broken "connection refused") GET_messages
                                          empty_db)))
       = JStr "connection refused"
       /\ keys (body (response (handle S O T I production
                                  (broken "connection refused") GET_messages empty_db)))
          = ["success"; "error"; "message"].
Proof.
  split; [reflexivity|]. intros S O T I. split.
  - destruct (storage_failure_response S O T I development (broken "connection refused")
                GET_messages empty_db "connection refused"
                ltac:(discriminate) ltac:(discriminate) eq_refl)
      as (_ & _ & _ & _ & [(_ & H & _)|(_ & [H|H])]);
      [exact H | congruence | discriminate H].
  - destruct (storage_failure_response S O T I production (broken "connection refused")
                GET_messages empty_db "connection refused"
                ltac:(discriminate) ltac:(discriminate) eq_refl)
      as (_ & _ & _ & _ & [(_ & _ & _ & H)|(H & _)]);
      [discriminate H | exact H].
Defined.

(** C9 at the parameter [abc]. *)
Lemma non_integer_id_500_witness :
  int4in_decimal "abc" = None
  /\ forall S O T,
       status (response (handle S O T int4in_decimal production calm (GET_message "abc")
                           one_row)) = 500%Z
       /\ status (response (handle S O T int4in_decimal production calm
                              (DELETE_message "abc") one_row)) = 500%Z.
Proof.
  split; [reflexivity|]. intros S O T.
  destruct (non_integer_id_500 S O T int4in_decimal production calm one_row "abc" eq_refl)
    as ((G & _) & (X & _)).
  split; [exact G | exact X].
Defined.

(** C10 does not hold as it is written: an array of 256 elements for [name]
    is truthy and not a string, and is answered with 400 by the check of
    the length; a number for [name] next to an empty [email] is answered
    with 400 by the check of presence. *)
Lemma truthy_non_string_answered_400 :
  (truthy (JArr (repeat JNull 256)) = true /\ is_string (JArr (repeat JNull 256)) = false
   /\ truthy (JNum 5) = true /\ is_string (JNum 5) = false)
  /\ (forall S O T I env w,
        response (handle S O T I env w (POST_messages long_array_name) empty_db)
        = validation_failed "Name must be less than 255 characters")
  /\ (forall S O T I env w,
        response (handle S O T I env w (POST_messages number_name_empty_email) empty_db)
        = validation_failed "All fields (name, email, message) are required").
Proof. split; [repeat split|]. split; intros; reflexivity. Qed.

(** C10 at a number for [name]. *)
Lemma post_non_string_500_witness :
  (truthy (JNum 5) = true /\ is_string (JNum 5) = false)
  /\ forall S O T I,
       status (response (handle S O T I production calm (POST_messages number_name)
                           empty_db)) = 500%Z
       /\ queries (handle S O T I production calm (POST_messages number_name) empty_db) = [].
Proof.
  split; [split; reflexivity|]. intros S O T I.
  destruct (proj1 (post_non_string_500 S O T I) production calm empty_db number_name
              (JNum 5) (JStr "a@b.com") (JStr "hi")
              eq_refl eq_refl eq_refl eq_refl eq_refl eq_refl eq_refl)
    as (H & _ & Q & _).
  split; [exact H | exact Q].
Defined.

(** ** The scenarios of the specification *)

(** POST Ada, list, delete the row, list again. *)
Example scenario_post_list_delete_list :
  forall S O T,
    map (fun o => (status (response o), field "count" (body (response o))))
      (run S O T int4in_decimal production
         [(calm, POST_messages ada); (calm, GET_messages);
          (calm, DELETE_message "1"); (calm, GET_messages)]
         empty_db)
    = [(201%Z, JUndefined); (200%Z, JNum 1); (200%Z, JUndefined); (200%Z, JNum 0)].
Proof. intros. reflexivity. Qed.

(** POST with an empty name. *)
Example scenario_empty_name :
  forall S O T I,
    handle S O T I production calm (POST_messages empty_name) one_row
    = quiet one_row
        (validation_failed "All fields (name, email, message) are required").
Proof. intros. reflexivity. Qed.

(** GET of an id that never existed. *)
Example scenario_never_existed :
  forall S O T,
    response (handle S O T int4in_decimal production calm (GET_message "999999") one_row)
    = not_found "Message not found".
Proof. intros. reflexivity. Qed.

(** ** Further statements at sample requests *)

Example ToString_of_integer_examples :
  map ToString_of_integer [JNum 0; JNum 7; JNum 42; JNum 1700000000; JNum (-15)]
  = ["0"; "7"; "42"; "1700000000"; "-15"].
Proof. reflexivity. Qed.



(** GET /api/messages in a world where every statement is rejected. *)
Lemma read_routes_keep_table_witness :
  is_write GET_messages = false
  /\ forall S O T I,
       db_after (handle S O T I production (broken "connection refused") GET_messages
                   one_row) = one_row.
Proof.
  split; [reflexivity|]. intros S O T I.
  apply (read_routes_keep_table S O T I production (broken "connection refused")
           GET_messages one_row eq_refl).
Defined.

(** [ada] posted on the table of one row in a world that loses the
    connection after the INSERT has run. *)
Lemma error_and_the_table_witness :
  (fault (lost_after "connection lost") 0 = Some "connection lost"
   /\ applied (lost_after "connection lost") 0 = true
   /\ has_room one_row)
  /\ forall S O T I,
       response (handle S O T I production (lost_after "connection lost")
                   (POST_messages ada) one_row)
       = internal_error "Failed to create message"
       /\ map name (messages (db_after (handle S O T I production
                                          (lost_after "connection lost")
                                          (POST_messages ada) one_row)))
          = ["Ada"; "Ada"].
Proof.
  assert (room : has_room one_row).
  { split; [unfold int4_max; simpl; lia|]. simpl. intros [H|[]]. discriminate H. }
  split; [repeat split; try apply room|]. intros S O T I.
  destruct (proj1 (proj2 (proj2 (error_and_the_table S O T I production
                                   (lost_after "connection lost") GET_health one_row)))
              "  Ada " "ada@example.com" "hello" "connection lost"
              ltac:(discriminate) ltac:(discriminate) ltac:(discriminate)
              ltac:(simpl; lia) ltac:(simpl; lia) eq_refl eq_refl eq_refl
              room eq_refl eq_refl) as (R & D).
  split; [exact R|]. fold ada in D. rewrite D. reflexivity.
Defined.

(** A body with an empty name and an email of 300 characters. *)
Lemma post_400_message_witness :
  absent_or_empty (Some "")
  /\ forall S O T I,
       response (handle S O T I production calm
                   (POST_messages (form (Some "") (Some (string_of_list_ascii
                                                            (repeat "a"%char 300)))
                                     (Some "hi")))
                   one_row)
       = validation_failed "All fields (name, email, message) are required".
Proof.
  split; [right; reflexivity|]. intros S O T I.
  pose proof (proj1 (post_400_message S O T I production calm one_row
                       (form (Some "") (Some (string_of_list_ascii (repeat "a"%char 300)))
                          (Some "hi"))
                       (Some "") (Some (string_of_list_ascii (repeat "a"%char 300)))
                       (Some "hi") eq_refl eq_refl eq_refl)
                (or_introl (or_intror eq_refl))) as H.
  rewrite H. reflexivity.
Defined.

(** Two posts on the empty table, one of them of white space only. *)
Lemma stored_rows_stay_ok_witness :
  table_ok empty_db
  /\ forall S O T I,
       table_ok (final_db empty_db
                   (run S O T I production
                      [(calm, POST_messages blank_name); (later, POST_messages ada)]
                      empty_db)).
Proof.
  assert (ok : table_ok empty_db) by (split; [reflexivity | constructor]).
  split; [exact ok|]. intros S O T I.
  apply (stored_rows_stay_ok S O T I production
           [(calm, POST_messages blank_name); (later, POST_messages ada)] empty_db ok).
Defined.



(** The two rows deleted in either order. *)
Lemma delete_twice_and_in_either_order_witness :
  (int4in_decimal "1" = Some 1%Z /\ int4in_decimal "2" = Some 2%Z)
  /\ forall S O T,
       db_after (handle S O T int4in_decimal production later (DELETE_message "2")
                   (db_after (handle S O T int4in_decimal production calm
                                (DELETE_message "1") two_rows)))
       = db_after (handle S O T int4in_decimal production later (DELETE_message "1")
                     (db_after (handle S O T int4in_decimal production calm
                                  (DELETE_message "2") two_rows))).
Proof.
  split; [split; reflexivity|]. intros S O T.
  exact (proj2 (delete_twice_and_in_either_order S O T int4in_decimal production
                  calm later two_rows "1" "2" 1 2 eq_refl eq_refl eq_refl eq_refl)).
Defined.

(** The version text of [calm]. *)
Lemma version_is_second_word_witness :
  (no_space "PostgreSQL" = true /\ no_space "15.4" = true)
  /\ version_number (version_row JNull "PostgreSQL 15.4 on x86_64-pc-linux-gnu")
     = JStr "15.4".
Proof.
  split; [split; reflexivity|].
  exact (proj1 (proj2 (version_is_second_word JNull "PostgreSQL" "15.4"
                         "on x86_64-pc-linux-gnu" eq_refl eq_refl))).
Defined.

(** /api/test-db on the table of two rows. *)
Lemma test_db_report_witness :
  fault calm 1 = None
  /\ forall S O T I,
       field "count" (field "messages"
                        (body (response (handle S O T I production calm GET_test_db
                                           two_rows))))
       = JNum 2.
Proof.
  split; [reflexivity|]. intros S O T I.
  destruct (test_db_report S O T I production calm two_rows) as (_ & H & _).
  destruct (H eq_refl) as (K & _). exact K.
Defined.

(** Start-up on the table of one row, and in a world where every statement
    is rejected. *)
Lemma initDb_keeps_the_table_witness :
  boots calm
  /\ initDb calm (Some (current one_row)) = Alive (Some (current one_row)) boot_statements.
Proof.
  assert (b : boots calm) by (repeat split).
  split; [exact b|].
  exact (proj1 (proj2 (initDb_keeps_the_table calm b)) true one_row).
Defined.

Lemma initDb_exits_on_rejection_witness :
  ~ boots (broken "connection refused")
  /\ exists sts, initDb (broken "connection refused") None = Exited 1 sts.
Proof.
  assert (b : ~ boots (broken "connection refused")).
  { intros (H & _). discriminate H. }
  split; [exact b|].
  exact (proj1 (initDb_exits_on_rejection None (broken "connection refused") None) b).
Defined.

(** Start-up on an older table of one row that has no [updated_at]. *)
Lemma initDb_older_schema_witness :
  boots later
  /\ exists d',
       initDb later (Some {| has_created_at := true; has_updated_at := false;
                             has_index := false; content := one_row |})
       = Alive (Some (current d')) boot_statements
       /\ map updated_at (messages d') = [1700000001%Z]
       /\ map created_at (messages d') = [1700000000%Z].
Proof.
  assert (b : boots later) by (repeat split).
  split; [exact b|].
  destruct (proj2 (initDb_older_schema later one_row) b false)
    as (d' & E & _ & _ & _ & _ & Hc & Hu & _).
  exists d'. split; [exact E|]. split; [|exact Hc].
  rewrite initDb_cases in E. simpl in E. injection E as <-. reflexivity.
Defined.


(** The list page: the first load against the table of two rows, and a
    load that the network fails. *)
Lemma fetchMessages_settles_witness :
  response_ok 200 = true
  /\ page_messages
       (fetchMessages false
          (Answered 200 (Some (js_object [("success", JBool true);
                                          ("data", JArr [JStr "card"])])))
          first_render)
     = JArr [JStr "card"]
  /\ page_messages (fetchMessages true NetworkError first_render) = JArr [].
Proof.
  split; [reflexivity|].
  destruct (fetchMessages_settles false
              (Answered 200 (Some (js_object [("success", JBool true);
                                              ("data", JArr [JStr "card"])])))
              first_render) as (_ & _ & _ & _ & _ & H).
  split; [exact (H 200%Z _ (JArr [JStr "card"]) eq_refl eq_refl eq_refl)|].
  exact (proj1 (proj2 (proj2 (proj2 (fetchMessages_settles true NetworkError
                                       first_render)))) eq_refl).
Defined.

Lemma refresh_shows_the_table_witness :
  fault calm 0 = None
  /\ forall S O T I,
       shows T
         (fetchMessages true
            (over_the_wire (response (handle S O T I production calm GET_messages
                                        two_rows)))
            first_render)
         two_rows
       /\ page_messages
            (fetchMessages true
               (over_the_wire (response (handle S O T I production calm GET_messages
                                           two_rows)))
               first_render)
          = JArr [row_json T later_bob_row; row_json T ada_row].
Proof.
  split; [reflexivity|]. intros S O T I.
  destruct (proj1 (refresh_shows_the_table S O T I production calm two_rows true
                     first_render) eq_refl) as (H & E).
  split; [exact H | exact E].
Defined.

(** A page of two cards; the Delete button of the second one. *)
Lemma delete_click_settles_witness :
  card_id 1 {| page_messages := JArr [js_object [("id", JNum 1)];
                                      js_object [("id", JNum 2)]];
               page_loading := false; refreshing := false; deletingIds := [] |}
  = Some (JNum 2)
  /\ delete_click 1 false NetworkError
       {| page_messages := JArr [js_object [("id", JNum 1)];
                                 js_object [("id", JNum 2)]];
          page_loading := false; refreshing := false; deletingIds := [] |}
     = Some ({| page_messages := JArr [js_object [("id", JNum 1)];
                                       js_object [("id", JNum 2)]];
                page_loading := false; refreshing := false; deletingIds := [] |},
             None).
Proof.
  split; [reflexivity|].
  exact (proj1 (delete_click_settles 1 NetworkError
                  {| page_messages := JArr [js_object [("id", JNum 1)];
                                            js_object [("id", JNum 2)]];
                     page_loading := false; refreshing := false; deletingIds := [] |}
                  (JNum 2) eq_refl)).
Defined.



(** A request that no route matches. *)
Lemma success_flag_agrees_with_status_witness :
  (Unmatched "/api/nothing" <> GET_health /\ Unmatched "/api/nothing" <> GET_root)
  /\ forall S O T I,
       field "success"
         (body (response (handle S O T I production calm (Unmatched "/api/nothing")
                            one_row)))
       = JBool false.
Proof.
  assert (h : Unmatched "/api/nothing" <> GET_health) by discriminate.
  assert (r : Unmatched "/api/nothing" <> GET_root) by discriminate.
  split; [split; assumption|]. intros S O T I.
  exact (proj1 (proj2 (success_flag_agrees_with_status S O T I production calm
                         (Unmatched "/api/nothing") one_row)) h r).
Defined.
